(** * node-query-typescript: the compiled query and its matching algorithm

    A shallow embedding of [src/compiler.ts] (the [Compiler] namespace:
    Expression, Selector, SimpleSelector, AttributeList, Attribute, the
    Value family and ArrayValue) and of the constructor of
    [src/node-query.ts], followed by the properties the specification
    states about them.

    Conventions of the embedding.
    - A JavaScript string is a [string]: its sequence of code units, each
      below 256.  Comparison of two strings with [<], [<=], [>], [>=] is
      the lexicographic order on code units, as in ECMAScript.
    - A JavaScript number is modelled when it is a safe integer (of
      magnitude at most 2^53 - 1), as a [Z]; [toString] renders it in
      decimal.  A [Z] beyond that range stands for no number of the
      program.
    - Code that can throw returns [Exc A] ([None] stands for the thrown
      TypeError); state that the source mutates is passed explicitly.
    - An object of the syntax tree is a [Node]; object identity ([===]
      on nodes) is equality of [id].  The [parent] link of a node is
      carried by a [NodeRef]: the node together with its chain of
      ancestors, nearest first. *)

From Stdlib Require Import List Bool Arith ZArith Lia.
From Stdlib Require Import Strings.Ascii Strings.String Numbers.DecimalString.
From Stdlib Require Numbers.DecimalZ.
Import ListNotations.

Set Implicit Arguments.
Set Warnings "-register-all".

(* ================================================================= *)
(** ** Exceptions *)

Definition Exc (A : Type) : Type := option A.

Definition ret {A : Type} (a : A) : Exc A := Some a.

Definition bind {A B : Type} (m : Exc A) (k : A -> Exc B) : Exc B :=
  match m with
  | Some a => k a
  | None => None
  end.

Notation "x <- m ;; k" := (bind m (fun x => k))
  (at level 61, m at next level, right associativity).

(** [a && b] of JavaScript when both sides can throw: [b] is evaluated
    only when [a] is true. *)
Definition andThen (a : Exc bool) (b : Exc bool) : Exc bool :=
  x <- a ;; if x then b else ret false.

Section Loops.
Variables A S : Type.

(** [array.forEach(f)] with the state the callback mutates passed
    along; a throwing callback ends the loop. *)
Variable f : A -> S -> Exc S.

Fixpoint forEach (l : list A) (st : S) : Exc S :=
  match l with
  | [] => ret st
  | x :: l' => st' <- f x st ;; forEach l' st'
  end.

Variable p : A -> Exc bool.

(** [array.every(p)]: stops at the first element that fails. *)
Fixpoint every (l : list A) : Exc bool :=
  match l with
  | [] => ret true
  | x :: l' => b <- p x ;; if b then every l' else ret false
  end.

(** [array.some(p)]: stops at the first element that passes. *)
Fixpoint some (l : list A) : Exc bool :=
  match l with
  | [] => ret false
  | x :: l' => b <- p x ;; if b then ret true else some l'
  end.
End Loops.

Section FlatMap.
Variables A B : Type.
Variable f : A -> Exc (list B).

(** [array.flatMap(f)] for a callback that can throw. *)
Fixpoint flatMapM (l : list A) : Exc (list B) :=
  match l with
  | [] => ret []
  | x :: l' => ys <- f x ;; zs <- flatMapM l' ;; ret (ys ++ zs)
  end.
End FlatMap.

(* ================================================================= *)
(** ** Strings and numbers of the host language *)

Module Js.

Definition char (n : nat) : ascii := ascii_of_nat n.

Definition dot : ascii := Eval cbv in char 46.
Definition newline : ascii := Eval cbv in char 10.
Definition dquote : ascii := Eval cbv in char 34.

(** [s.startsWith(t)] *)
Definition startsWith (s t : string) : bool := String.prefix t s.

(** [s.endsWith(t)] *)
Definition endsWith (s t : string) : bool :=
  (String.length t <=? String.length s) &&
  String.eqb (String.substring (String.length s - String.length t)
                               (String.length t) s) t.

(** [s.includes(t)] *)
Fixpoint includes (s t : string) : bool :=
  String.prefix t s ||
  match s with
  | EmptyString => false
  | String _ s' => includes s' t
  end.

(** The relational operators on two strings. *)
Definition lt (s t : string) : bool := String.ltb s t.
Definition le (s t : string) : bool := String.leb s t.
Definition gt (s t : string) : bool := String.ltb t s.
Definition ge (s t : string) : bool := String.leb t s.

(** [s.substring(a, b)]: both indices are clamped to [0, length] and
    swapped when the first exceeds the second. *)
Definition clamp (i : Z) (len : nat) : nat := Nat.min (Z.to_nat i) len.

Definition substring (s : string) (a b : Z) : string :=
  let a' := clamp a (String.length s) in
  let b' := clamp b (String.length s) in
  String.substring (Nat.min a' b') (Nat.max a' b' - Nat.min a' b') s.

(** White space removed by [trim], among the code units below 256. *)
Definition isWhiteSpace (c : ascii) : bool :=
  let n := nat_of_ascii c in
  ((9 <=? n) && (n <=? 13)) || (n =? 32) || (n =? 160).

Fixpoint trimStart (s : string) : string :=
  match s with
  | EmptyString => EmptyString
  | String c s' => if isWhiteSpace c then trimStart s' else s
  end.

Fixpoint trimEnd (s : string) : string :=
  match s with
  | EmptyString => EmptyString
  | String c s' =>
      match trimEnd s' with
      | EmptyString => if isWhiteSpace c then EmptyString
                       else String c EmptyString
      | r => String c r
      end
  end.

(** [s.trim()] *)
Definition trim (s : string) : string := trimEnd (trimStart s).

(** [s.split(sep)] for a one character separator: never empty. *)
Fixpoint split (sep : ascii) (s : string) : list string :=
  match s with
  | EmptyString => [EmptyString]
  | String c s' =>
      if Ascii.eqb c sep then EmptyString :: split sep s'
      else match split sep s' with
           | [] => [String c EmptyString]
           | w :: ws => String c w :: ws
           end
  end.

(** [lines.join(sep)] *)
Definition join (sep : ascii) (ls : list string) : string :=
  String.concat (String sep EmptyString) ls.

(** [array.slice(0, n)] *)
Definition slice0 {A : Type} (n : nat) (l : list A) : list A := firstn n l.

(** [Number.isSafeInteger(n)]: an integer of magnitude at most
    2^53 - 1. *)
Definition isSafeInteger (z : Z) : bool :=
  (Z.abs z <=? 9007199254740991)%Z.

(** [n.toString()] for a safe integer: all its decimal digits, with a
    minus sign when negative.  Beyond the safe integers [toString]
    rounds to the shortest digits that read back, and from 1e21 it uses
    exponent notation; this rendering does not follow it there, so a
    statement that depends on the text of a number is meant for safe
    integers. *)
Definition numberToString (z : Z) : string :=
  NilZero.string_of_int (Z.to_int z).

(** [b.toString()] *)
Definition booleanToString (b : bool) : string :=
  if b then "true"%string else "false"%string.

(** The canonical array index a property key denotes, if any. *)
Definition indexToString (i : nat) : string :=
  NilZero.string_of_uint (Nat.to_uint i).

Definition arrayIndex (key : string) (len : nat) : option nat :=
  find (fun i => String.eqb (indexToString i) key) (seq 0 len).

End Js.

(* ================================================================= *)
(** ** The syntax tree and the values reachable from it *)

(** What a key path can resolve to: a primitive, an array (a NodeArray),
    or a node.  A node has its identity, its [kind] (a number of the
    SyntaxKind enum), the text [getFullText()] returns, its own data
    properties other than [kind] and [parent], and the children
    [forEachChild] visits, in order. *)
Inductive JsValue : Type :=
| JNull
| JUndefined
| JBoolean (b : bool)
| JNumber (z : Z)
| JString (s : string)
| JArray (items : list JsValue)
| JNode (n : Node)
with Node : Type :=
| MkNode (id : nat) (kind : nat) (fullText : string)
         (fields : list (string * JsValue)) (children : list Node).

Definition id (n : Node) : nat := let (i, _, _, _, _) := n in i.
Definition kind (n : Node) : nat := let (_, k, _, _, _) := n in k.
Definition getFullText (n : Node) : string := let (_, _, t, _, _) := n in t.
Definition fields (n : Node) : list (string * JsValue) :=
  let (_, _, _, fs, _) := n in fs.
Definition children (n : Node) : list Node := let (_, _, _, _, cs) := n in cs.

(** Induction on a node with the property available for its children. *)
Section NodeInduction.

Variable P : Node -> Prop.
Hypothesis step :
  forall i k t fs cs, Forall P cs -> P (MkNode i k t fs cs).

Fixpoint Node_children_ind (n : Node) : P n :=
  match n with
  | MkNode i k t fs cs =>
      @step i k t fs cs
           ((fix all (l : list Node) : Forall P l :=
               match l with
               | [] => Forall_nil P
               | c :: l' => Forall_cons c (Node_children_ind c) (all l')
               end) cs)
  end.

End NodeInduction.

(** A reference to a node of a tree: [node.parent] is the head of
    [ancestors], absent for the root. *)
Record NodeRef : Type := mkRef { self : Node; ancestors : list Node }.

Definition parent (r : NodeRef) : option NodeRef :=
  match ancestors r with
  | [] => None
  | p :: up => Some (mkRef p up)
  end.

(** The nodes [node.forEachChild(cb)] passes to [cb], in order.  No
    callback of the compiler returns a value, so the visit never stops
    early. *)
Definition forEachChild (r : NodeRef) : list NodeRef :=
  map (fun c => mkRef c (self r :: ancestors r)) (children (self r)).

(** [a === b] on two nodes. *)
Definition sameNode (a b : NodeRef) : bool := id (self a) =? id (self b).

(** [!target] is false. *)
Definition truthy (v : JsValue) : bool :=
  match v with
  | JNull | JUndefined => false
  | JBoolean b => b
  | JNumber z => negb (z =? 0)%Z
  | JString s => negb (String.eqb s EmptyString)
  | JArray _ | JNode _ => true
  end.

Definition isArray (v : JsValue) : bool :=
  match v with
  | JArray _ => true
  | _ => false
  end.

Fixpoint assoc (key : string) (l : list (string * JsValue)) : option JsValue :=
  match l with
  | [] => None
  | (k, v) :: l' => if String.eqb k key then Some v else assoc key l'
  end.

(** [target.hasOwnProperty(key)] together with [target[key]]: [Some v]
    when the property is an own property holding [v]. *)
Definition ownProperty (target : JsValue) (key : string) : option JsValue :=
  match target with
  | JNode n =>
      if String.eqb key "kind" then Some (JNumber (Z.of_nat (kind n)))
      else assoc key (fields n)
  | JArray items =>
      if String.eqb key "length" then Some (JNumber (Z.of_nat (List.length items)))
      else match Js.arrayIndex key (List.length items) with
           | Some i => nth_error items i
           | None => None
           end
  | JString s =>
      if String.eqb key "length" then Some (JNumber (Z.of_nat (String.length s)))
      else match Js.arrayIndex key (String.length s) with
           | Some i => Some (JString (String.substring i 1 s))
           | None => None
           end
  | _ => None
  end.

(* ================================================================= *)
(** ** The compiled query: [namespace Compiler] *)

Module Compiler.

Open Scope string_scope.
Open Scope list_scope.

(** The atoms: Boolean, Identifier, Null, Number, String, Undefined. *)
Inductive Value : Type :=
| Boolean (value : bool)
| Identifier (value : string)
| Null
| Number (value : Z)
| String (value : string)
| Undefined.

(** [class ArrayValue]: a chain of cells; a cell holds [value] when it
    is not null and continues with [rest] when it is not null. *)
Inductive ArrayValue : Type :=
| MkArrayValue (value : option Value) (rest : option ArrayValue).

Inductive Selector : Type :=
| MkSelector (simpleSelector : option SimpleSelector)
             (relationship : option string)
with SimpleSelector : Type :=
| MkSimpleSelector (nodeType : string) (attributeList : option AttributeList)
with AttributeList : Type :=
| MkAttributeList (attribute : Attribute) (rest : option AttributeList)
with Attribute : Type :=
| MkAttribute (key : string) (value : AttributeValue) (operator : string)
with AttributeValue : Type :=
| OfValue (v : Value)
| OfArrayValue (a : ArrayValue)
| OfSelector (s : Selector).

Inductive Expression : Type :=
| MkExpression (selector : Selector) (rest : option Expression).

Definition simpleSelector (s : Selector) : option SimpleSelector :=
  let (ss, _) := s in ss.
Definition relationship (s : Selector) : option string :=
  let (_, r) := s in r.

(* --------------------------------------------------------------- *)
(** *** The Value family *)

(** [Value.actualValue] *)
Definition Value_actualValue (node : JsValue) : Exc string :=
  match node with
  | JNull => ret "null"
  | JUndefined => ret "undefined"
  | JString s => ret s
  | JNumber z => ret (Js.numberToString z)
  | JBoolean b => ret (Js.booleanToString b)
  | JNode n => ret (Js.trim (getFullText n))
  | JArray _ => None (* an array has no getFullText: TypeError *)
  end.

(** [String.actualValue]: [super.actualValue(node)] without its first
    and last character. *)
Definition String_actualValue (node : JsValue) : Exc string :=
  value <- Value_actualValue node ;;
  ret (Js.substring value 1 (Z.of_nat (String.length value) - 1)).

(** [this.actualValue(node)], by the class of [this]. *)
Definition actualValue (this : Value) (node : JsValue) : Exc string :=
  match this with
  | String _ => String_actualValue node
  | _ => Value_actualValue node
  end.

(** [this.expectedValue()], by the class of [this]. *)
Definition expectedValue (this : Value) : string :=
  match this with
  | Boolean b => Js.booleanToString b
  | Identifier s => s
  | Null => "null"
  | Number z => Js.numberToString z
  | String s => s
  | Undefined => "undefined"
  end.

(** [Value.match] *)
Definition Value_match (this : Value) (node : JsValue) (operator : string)
  : Exc bool :=
  actual <- actualValue this node ;;
  let expected := expectedValue this in
  if operator =? "^=" then ret (Js.startsWith actual expected)
  else if operator =? "$=" then ret (Js.endsWith actual expected)
  else if operator =? "*=" then ret (Js.includes actual expected)
  else if operator =? "!=" then ret (negb (actual =? expected))
  else if operator =? ">=" then ret (Js.ge actual expected)
  else if operator =? ">" then ret (Js.gt actual expected)
  else if operator =? "<=" then ret (Js.le actual expected)
  else if operator =? "<" then ret (Js.lt actual expected)
  else ret (actual =? expected).

(** [Number.match] *)
Definition Number_match (this : Value) (node : JsValue) (operator : string)
  : Exc bool :=
  actual <- actualValue this node ;;
  let expected := expectedValue this in
  if operator =? "!=" then ret (negb (actual =? expected))
  else if operator =? ">=" then ret (Js.ge actual expected)
  else if operator =? ">" then ret (Js.gt actual expected)
  else if operator =? "<=" then ret (Js.le actual expected)
  else if operator =? "<" then ret (Js.lt actual expected)
  else ret (actual =? expected).

(** [value.match(node, operator)], by the class of [value]. *)
Definition match_ (this : Value) (node : JsValue) (operator : string)
  : Exc bool :=
  match this with
  | Number _ => Number_match this node operator
  | _ => Value_match this node operator
  end.

(** [ArrayValue.expectedValue] *)
Fixpoint ArrayValue_expectedValue (this : ArrayValue) : list Value :=
  match this with
  | MkArrayValue value rest =>
      (match value with Some v => [v] | None => [] end)
        ++ (match rest with
            | Some r => ArrayValue_expectedValue r
            | None => []
            end)
  end.

(** The loop of [compareNotEqual], entered with lists of one length. *)
Fixpoint compareNotEqual_loop (actual : list JsValue) (expected : list Value)
  : Exc bool :=
  match actual, expected with
  | a :: actual', e :: expected' =>
      b <- match_ e a "!=" ;;
      if b then ret true else compareNotEqual_loop actual' expected'
  | _, _ => ret false
  end.

Definition compareNotEqual (actual : list JsValue) (expected : list Value)
  : Exc bool :=
  if negb (List.length expected =? List.length actual)%nat then ret true
  else compareNotEqual_loop actual expected.

(** The loop of [compareEqual], entered with lists of one length. *)
Fixpoint compareEqual_loop (actual : list JsValue) (expected : list Value)
  : Exc bool :=
  match actual, expected with
  | a :: actual', e :: expected' =>
      b <- match_ e a "==" ;;
      if b then compareEqual_loop actual' expected' else ret false
  | _, _ => ret true
  end.

Definition compareEqual (actual : list JsValue) (expected : list Value)
  : Exc bool :=
  if negb (List.length expected =? List.length actual)%nat then ret false
  else compareEqual_loop actual expected.

(** [ArrayValue.match] *)
Definition ArrayValue_match (this : ArrayValue) (node : JsValue)
           (operator : string) : Exc bool :=
  let expected := ArrayValue_expectedValue this in
  if operator =? "not_in" then
    andThen (ret (negb (isArray node)))
            (every (fun expectedValue => match_ expectedValue node "!=") expected)
  else if operator =? "in" then
    andThen (ret (negb (isArray node)))
            (some (fun expectedValue => match_ expectedValue node "==") expected)
  else if operator =? "!=" then
    match node with
    | JArray items => compareNotEqual items expected
    | _ => ret false
    end
  else
    match node with
    | JArray items => compareEqual items expected
    | _ => ret false
    end.

(* --------------------------------------------------------------- *)
(** *** Attribute, AttributeList, SimpleSelector, Selector, Expression *)

Section Matching.

(** The reverse mapping of the [SyntaxKind] enum of the typescript
    package: [SyntaxKind[k]] is the name of kind [k], or undefined. *)
Variable SyntaxKind : nat -> option string.

(** The functions a value inherits from its prototype chain:
    [proto target key = Some r] when
    [typeof target[key] === "function"] for a [key] that is not an
    own property, [r] being the outcome of [target[key].call(target)]. *)
Variable proto : JsValue -> string -> option (Exc JsValue).

(** The body of the callback of [Attribute.getTargetNode], on the
    local [target]. *)
Definition getTargetNode_step (key : string) (target : JsValue)
  : Exc JsValue :=
  if negb (truthy target) then ret target
  else match ownProperty target key with
       | Some v => ret v
       | None =>
           match proto target key with
           | Some call => call
           | None => ret JNull
           end
       end.

(** The segments of a key are visited in order. *)
Definition resolve (keys : list string) (target : JsValue) : Exc JsValue :=
  forEach getTargetNode_step keys target.

(** [Attribute.getTargetNode] *)
Definition getTargetNode (key : string) (node : JsValue) : Exc JsValue :=
  resolve (Js.split Js.dot key) node.

(** [SyntaxKind[node.kind]]: reading [kind] off null or undefined
    throws; a value that is not a node has no [kind]. *)
Definition kindName (node : JsValue) : Exc (option string) :=
  match node with
  | JNull | JUndefined => None
  | JNode n => ret (SyntaxKind (kind n))
  | _ => ret None
  end.

(** [nodeType == name], [name] possibly undefined. *)
Definition looseEq (nodeType : string) (name : option string) : bool :=
  match name with
  | Some s => nodeType =? s
  | None => false
  end.

(** [Selector.match], [SimpleSelector.match], [AttributeList.match]
    and [Attribute.match]. *)
Fixpoint Selector_match (this : Selector) (node : JsValue) {struct this}
  : Exc bool :=
  match this with
  | MkSelector simpleSelector _ =>
      match simpleSelector with
      | None => ret true
      | Some ss => SimpleSelector_match ss node
      end
  end
with SimpleSelector_match (this : SimpleSelector) (node : JsValue)
                          {struct this} : Exc bool :=
  match this with
  | MkSimpleSelector nodeType attributeList =>
      andThen (name <- kindName node ;; ret (looseEq nodeType name))
              (match attributeList with
               | None => ret true
               | Some l => AttributeList_match l node
               end)
  end
with AttributeList_match (this : AttributeList) (node : JsValue)
                         {struct this} : Exc bool :=
  match this with
  | MkAttributeList attribute rest =>
      andThen (Attribute_match attribute node)
              (match rest with
               | None => ret true
               | Some l => AttributeList_match l node
               end)
  end
with Attribute_match (this : Attribute) (node : JsValue) {struct this}
  : Exc bool :=
  match this with
  | MkAttribute key value operator =>
      target <- getTargetNode key node ;;
      match value with
      | OfValue v => match_ v target operator
      | OfArrayValue a => ArrayValue_match a target operator
      | OfSelector s => Selector_match s target
      end
  end.

(** The callback the selector hands to every traversal: push the
    node when it matches. *)
Definition pushIfMatch (this : Selector) (node : NodeRef)
           (nodes : list NodeRef) : Exc (list NodeRef) :=
  b <- Selector_match this (JNode (self node)) ;;
  ret (if b then nodes ++ [node] else nodes).

(** [Selector.handleRecursiveChild], for a handler acting on a
    state [S]. *)
Fixpoint handleRecursiveChild_from (S : Type) (node : Node)
         (up : list Node) (handler : NodeRef -> S -> Exc S) (st : S)
         {struct node} : Exc S :=
  match node with
  | MkNode _ _ _ _ cs =>
      forEach (fun childNode st0 =>
                 st1 <- handler (mkRef childNode (node :: up)) st0 ;;
                 handleRecursiveChild_from childNode (node :: up) handler st1)
              cs st
  end.

Definition handleRecursiveChild (S : Type) (node : NodeRef)
           (handler : NodeRef -> S -> Exc S) (st : S) : Exc S :=
  handleRecursiveChild_from (self node) (ancestors node) handler st.

(** [node.parent.forEachChild]: throws on a node without parent. *)
Definition parentChildren (node : NodeRef) : Exc (list NodeRef) :=
  match parent node with
  | Some p => ret (forEachChild p)
  | None => None
  end.

(** [Selector.getNextSibling]; the state is [(matched, nextSibling)]. *)
Definition getNextSibling (node : NodeRef) : Exc (option NodeRef) :=
  siblings <- parentChildren node ;;
  st <- forEach
          (fun childNode (st : bool * option NodeRef) =>
             let (matched, nextSibling) := st in
             match nextSibling with
             | Some _ => ret st
             | None =>
                 if matched then ret (matched, Some childNode)
                 else if sameNode childNode node then ret (true, nextSibling)
                      else ret st
             end)
          siblings (false, None) ;;
  ret (snd st).

(** [Selector.handleSiblings]; the state is [matched] and the state
    of the handler. *)
Definition handleSiblings (S : Type) (node : NodeRef)
           (handler : NodeRef -> S -> Exc S) (st : S) : Exc S :=
  siblings <- parentChildren node ;;
  r <- forEach
         (fun childNode (ms : bool * S) =>
            let (matched, s0) := ms in
            s1 <- (if matched then handler childNode s0 else ret s0) ;;
            ret (if sameNode childNode node then true else matched, s1))
         siblings (false, st) ;;
  ret (snd r).

(** [Selector.findNodesByRelationship] *)
Definition findNodesByRelationship (this : Selector) (node : NodeRef)
  : Exc (list NodeRef) :=
  match relationship this with
  | None => ret []
  | Some r =>
      if r =? ">" then forEach (pushIfMatch this) (forEachChild node) []
      else if r =? "+" then
        nextSibling <- getNextSibling node ;;
        match nextSibling with
        | Some n => pushIfMatch this n []
        | None => ret []
        end
      else if r =? "~" then handleSiblings node (pushIfMatch this) []
      else ret []
  end.

(** [this.relationship] is truthy: neither null nor empty. *)
Definition hasRelationship (this : Selector) : bool :=
  match relationship this with
  | Some r => negb (r =? EmptyString)
  | None => false
  end.

(** [Selector.queryNodes] on one node. *)
Definition Selector_queryNodes_node (this : Selector) (node : NodeRef)
           (descendantMatch : bool) : Exc (list NodeRef) :=
  if hasRelationship this then findNodesByRelationship this node
  else
    nodes <- pushIfMatch this node [] ;;
    if descendantMatch
    then handleRecursiveChild node (pushIfMatch this) nodes
    else ret nodes.

(** [Selector.queryNodes]: [inl] a node, [inr] an array of nodes. *)
Definition Selector_queryNodes (this : Selector)
           (node : NodeRef + list NodeRef) (descendantMatch : bool)
  : Exc (list NodeRef) :=
  match node with
  | inl n => Selector_queryNodes_node this n descendantMatch
  | inr l =>
      flatMapM (fun childNode =>
                  Selector_queryNodes_node this childNode descendantMatch) l
  end.

(** [Expression.queryNodes], with [findNodesByRest] inlined. *)
Fixpoint Expression_queryNodes (this : Expression)
         (node : NodeRef + list NodeRef) (descendantMatch : bool)
  : Exc (list NodeRef) :=
  match this with
  | MkExpression selector rest =>
      matchingNodes <- Selector_queryNodes selector node descendantMatch ;;
      match rest with
      | None => ret matchingNodes
      | Some r =>
          flatMapM (fun matchingNode =>
                      Expression_queryNodes r (inl matchingNode) descendantMatch)
                   matchingNodes
      end
  end.

(** [Expression.match] *)
Definition Expression_match (this : Expression) (node : NodeRef)
  : Exc bool :=
  nodes <- Expression_queryNodes this (inl node) true ;;
  ret (negb (List.length nodes =? 0)%nat).

End Matching.

(* --------------------------------------------------------------- *)
(** *** toString *)

(** [`${value}`] for an atom: Boolean, Identifier, Number and String
    define [toString]; Null and Undefined inherit the one of Object. *)
Definition Value_toString (this : Value) : string :=
  match this with
  | Boolean b => Js.booleanToString b
  | Identifier s => s
  | Number z => Js.numberToString z
  | String s =>
      (String.String Js.dquote s ++ String.String Js.dquote EmptyString)%string
  | Null | Undefined => "[object Object]"
  end.

(** [ArrayValue.toString]: a cell without [rest] calls
    [this.value.toString()], which throws on a null [value]; inside the
    template a null [value] prints as null. *)
Fixpoint ArrayValue_toString (this : ArrayValue) : Exc string :=
  match this with
  | MkArrayValue value rest =>
      match rest with
      | Some r =>
          tail <- ArrayValue_toString r ;;
          ret ((match value with
                | Some v => Value_toString v
                | None => "null"
                end) ++ " " ++ tail)%string
      | None =>
          match value with
          | Some v => ret (Value_toString v)
          | None => None
          end
      end
  end.

(** The text [Attribute.toString] puts between key and value. *)
Definition operatorText (operator : string) : string :=
  if (operator =? "^=") || (operator =? "$=") || (operator =? "*=")
     || (operator =? "!=") || (operator =? ">=") || (operator =? ">")
     || (operator =? "<=") || (operator =? "<")
  then operator else "=".

(** [Selector.toString], [SimpleSelector.toString],
    [AttributeList.toString] and [Attribute.toString]. *)
Fixpoint Selector_toString (this : Selector) : Exc string :=
  match this with
  | MkSelector simpleSelector relationship =>
      let head :=
        match relationship with
        | Some r => if r =? EmptyString then EmptyString
                    else (r ++ " ")%string
        | None => EmptyString
        end in
      match simpleSelector with
      | Some ss => text <- SimpleSelector_toString ss ;; ret (head ++ text)%string
      | None => ret head
      end
  end
with SimpleSelector_toString (this : SimpleSelector) : Exc string :=
  match this with
  | MkSimpleSelector nodeType attributeList =>
      match attributeList with
      | Some l =>
          text <- AttributeList_toString l ;;
          ret (String.String Js.dot nodeType ++ text)%string
      | None => ret (String.String Js.dot nodeType)
      end
  end
with AttributeList_toString (this : AttributeList) : Exc string :=
  match this with
  | MkAttributeList attribute rest =>
      match rest with
      | Some l =>
          a <- Attribute_toString attribute ;;
          text <- AttributeList_toString l ;;
          ret ("[" ++ a ++ "]" ++ text)%string
      | None =>
          a <- Attribute_toString attribute ;;
          ret ("[" ++ a ++ "]")%string
      end
  end
with Attribute_toString (this : Attribute) : Exc string :=
  match this with
  | MkAttribute key value operator =>
      text <- match value with
              | OfValue v => ret (Value_toString v)
              | OfArrayValue a => ArrayValue_toString a
              | OfSelector s => Selector_toString s
              end ;;
      if operator =? "not_in" then ret (key ++ " NOT IN (" ++ text ++ ")")%string
      else if operator =? "in" then ret (key ++ " IN (" ++ text ++ ")")%string
      else ret (key ++ operatorText operator ++ text)%string
  end.

(** [Expression.toString] *)
Fixpoint Expression_toString (this : Expression) : Exc string :=
  match this with
  | MkExpression selector rest =>
      head <- Selector_toString selector ;;
      match rest with
      | Some r =>
          tail <- Expression_toString r ;;
          ret (Js.join " "%char [head; tail])
      | None => ret (Js.join " "%char [head])
      end
  end.

End Compiler.

(* ================================================================= *)
(** ** The entry point: [class NodeQuery] *)

Module NodeQuery.

Open Scope string_scope.

(** What [parser.parse] can throw: an instance of [Error] with its
    message, or any other value. *)
Inductive Thrown : Type :=
| ErrorObject (message : string)
| OtherValue (tag : nat).

(** What the constructor throws: a new [SyntaxError] with its message,
    or the caught value again. *)
Inductive Raised : Type :=
| SyntaxError (message : string)
| Rethrown (error : Thrown).

Section Constructor.

(** The class of a compiled query and its [queryNodes], from the
    generated parser's side of the package. *)
Variable ExpressionList : Type.
Variable T : Type.
Variable queryNodes : ExpressionList -> T -> list T.

(** The shared parser object: [yy.result] is what the last successful
    parse left there, undefined before the first. *)
Record Parser : Type := mkParser { yy_result : option ExpressionList }.

(** [parser.parse(nql)]: the parser afterwards and, when the call
    throws, the value thrown. *)
Variable parse : string -> Parser -> Parser * option Thrown.

Record NodeQuery : Type := mkNodeQuery { expression : option ExpressionList }.

(** [error instanceof Error] and its message starts with
    "Lexical error" or "Parse error". *)
Definition isMalformedInput (error : Thrown) : bool :=
  match error with
  | ErrorObject message =>
      Js.startsWith message "Lexical error" ||
      Js.startsWith message "Parse error"
  | OtherValue _ => false
  end.

(** [message.split("\n").slice(0, 3).join("\n")] *)
Definition truncated (message : string) : string :=
  Js.join Js.newline (Js.slice0 3 (Js.split Js.newline message)).

(** [new NodeQuery(nql)] *)
Definition new (nql : string) (parser : Parser)
  : Parser * (NodeQuery + Raised) :=
  let (parser', thrown) := parse nql parser in
  match thrown with
  | None => (parser', inl (mkNodeQuery (yy_result parser')))
  | Some error =>
      if isMalformedInput error then
        match error with
        | ErrorObject message =>
            (parser', inr (SyntaxError (truncated message)))
        | OtherValue _ => (parser', inr (Rethrown error))
        end
      else (parser', inr (Rethrown error))
  end.

(** [NodeQuery.parse]: calling [queryNodes] on an undefined
    expression throws. *)
Definition NodeQuery_parse (this : NodeQuery) (node : T) : Exc (list T) :=
  match expression this with
  | Some e => ret (queryNodes e node)
  | None => None
  end.

End Constructor.

Section Configuration.

(** The adapters, and the one [new TypescriptAdapter()] builds. *)
Variable Adapter : Type.
Variable TypescriptAdapter : Adapter.

(** The static field [NodeQuery.adapter], undefined at first. *)
Record Statics : Type := mkStatics { adapter : option Adapter }.

(** [NodeQuery.configure] *)
Definition configure (options_adapter : Adapter) (st : Statics) : Statics :=
  mkStatics (Some options_adapter).

(** [NodeQuery.getAdapter]: the adapter and the statics afterwards. *)
Definition getAdapter (st : Statics) : Adapter * Statics :=
  match adapter st with
  | Some a => (a, st)
  | None => (TypescriptAdapter, mkStatics (Some TypescriptAdapter))
  end.

End Configuration.

End NodeQuery.

(* ================================================================= *)
(** ** Reference definitions the properties are stated against *)

Open Scope string_scope.
Open Scope list_scope.

(** A node and its descendants in depth-first preorder: the node, then
    the subtree of each child in the order [forEachChild] reports. *)
Fixpoint preorder_from (n : Node) (up : list Node) {struct n} : list NodeRef :=
  match n with
  | MkNode _ _ _ _ cs =>
      mkRef n up :: flat_map (fun c => preorder_from c (n :: up)) cs
  end.

Definition preorder (r : NodeRef) : list NodeRef :=
  preorder_from (self r) (ancestors r).

(** The children [cs] of [P] as references: what [forEachChild] hands
    out for them. *)
Definition childRefs (P : Node) (up : list Node) (cs : list Node) : list NodeRef :=
  map (fun c => mkRef c (P :: up)) cs.

(** The selector [.Foo], alone or behind a combinator. *)
Definition typeSelector (nodeType : string) (relationship : option string)
  : Compiler.Selector :=
  Compiler.MkSelector (Some (Compiler.MkSimpleSelector nodeType None))
                      relationship.

(** The reported type name of a node is [nodeType]. *)
Definition hasType (SyntaxKind : nat -> option string) (nodeType : string)
           (r : NodeRef) : bool :=
  match SyntaxKind (kind (self r)) with
  | Some name => nodeType =? name
  | None => false
  end.

(** The attribute [[key op v]] for an atom [v]. *)
Definition attr (key op : string) (v : Compiler.Value) : Compiler.Attribute :=
  Compiler.MkAttribute key (Compiler.OfValue v) op.

(** The array literal [(v1, ..., vn)] as the parser chains it. *)
Fixpoint arrayOf (vs : list Compiler.Value) : Compiler.ArrayValue :=
  match vs with
  | [] => Compiler.MkArrayValue None None
  | [v] => Compiler.MkArrayValue (Some v) None
  | v :: vs' => Compiler.MkArrayValue (Some v) (Some (arrayOf vs'))
  end.

(** Keeping the elements a throwing test accepts: the outcome of a
    loop that pushes each accepted element, a throw ending everything. *)
Fixpoint filterM {A : Type} (p : A -> Exc bool) (l : list A) : Exc (list A) :=
  match l with
  | [] => ret []
  | x :: l' =>
      b <- p x ;; rest <- filterM p l' ;; ret (if b then x :: rest else rest)
  end.

Fixpoint mapM {A B : Type} (f : A -> Exc B) (l : list A) : Exc (list B) :=
  match l with
  | [] => ret []
  | x :: l' => y <- f x ;; rest <- mapM f l' ;; ret (y :: rest)
  end.

(** The selectors of an expression, the attributes of an attribute
    list, in order. *)
Fixpoint selectors (e : Compiler.Expression) : list Compiler.Selector :=
  match e with
  | Compiler.MkExpression s rest =>
      s :: match rest with
           | Some r => selectors r
           | None => []
           end
  end.

Fixpoint attributes (l : Compiler.AttributeList) : list Compiler.Attribute :=
  match l with
  | Compiler.MkAttributeList a rest =>
      a :: match rest with
           | Some r => attributes r
           | None => []
           end
  end.

(** [this.match(node)] on a node of the tree. *)
Definition matchRef (SyntaxKind : nat -> option string)
           (proto : JsValue -> string -> option (Exc JsValue))
           (this : Compiler.Selector) (r : NodeRef) : Exc bool :=
  Compiler.Selector_match SyntaxKind proto this (JNode (self r)).

(** The nodes a query is run on: the node, or the elements of the
    array. *)
Definition asList (node : NodeRef + list NodeRef) : list NodeRef :=
  match node with
  | inl n => [n]
  | inr l => l
  end.

(** Induction along the [rest] of an expression, of an attribute list
    and of an array literal. *)
Section ChainInduction.

Variable P : Compiler.Expression -> Prop.
Hypothesis P_last : forall s, P (Compiler.MkExpression s None).
Hypothesis P_more :
  forall s r, P r -> P (Compiler.MkExpression s (Some r)).

Fixpoint Expression_rest_ind (e : Compiler.Expression) : P e :=
  match e with
  | Compiler.MkExpression s None => P_last s
  | Compiler.MkExpression s (Some r) => @P_more s r (Expression_rest_ind r)
  end.

Variable Q : Compiler.AttributeList -> Prop.
Hypothesis Q_last : forall a, Q (Compiler.MkAttributeList a None).
Hypothesis Q_more :
  forall a r, Q r -> Q (Compiler.MkAttributeList a (Some r)).

Fixpoint AttributeList_rest_ind (l : Compiler.AttributeList) : Q l :=
  match l with
  | Compiler.MkAttributeList a None => Q_last a
  | Compiler.MkAttributeList a (Some r) => @Q_more a r (AttributeList_rest_ind r)
  end.

Variable R : Compiler.ArrayValue -> Prop.
Hypothesis R_last : forall v, R (Compiler.MkArrayValue v None).
Hypothesis R_more :
  forall v r, R r -> R (Compiler.MkArrayValue v (Some r)).

Fixpoint ArrayValue_rest_ind (a : Compiler.ArrayValue) : R a :=
  match a with
  | Compiler.MkArrayValue v None => R_last v
  | Compiler.MkArrayValue v (Some r) => @R_more v r (ArrayValue_rest_ind r)
  end.

End ChainInduction.

(** The character [c] occurs in [s]. *)
Fixpoint contains (c : ascii) (s : string) : bool :=
  match s with
  | EmptyString => false
  | String.String c' s' => Ascii.eqb c' c || contains c s'
  end.

(** Every cell of an array literal holds a value. *)
Fixpoint allCellsFilled (a : Compiler.ArrayValue) : bool :=
  match a with
  | Compiler.MkArrayValue value rest =>
      match value with Some _ => true | None => false end
      && match rest with
         | Some r => allCellsFilled r
         | None => true
         end
  end.

(** Evaluating a list of selectors level by level: each selector is
    queried on every node the one before returned. *)
Fixpoint queryLevels (query : Compiler.Selector -> NodeRef -> Exc (list NodeRef))
         (ss : list Compiler.Selector) (nodes : list NodeRef)
  : Exc (list NodeRef) :=
  match ss with
  | [] => ret nodes
  | s :: ss' => next <- flatMapM (query s) nodes ;; queryLevels query ss' next
  end.

(** The operators [Value.match] and [Number.match] name in a case. *)
Definition valueCases : list string :=
  ["^="; "$="; "*="; "!="; ">="; ">"; "<="; "<"].

Definition numberCases : list string :=
  ["!="; ">="; ">"; "<="; "<"].

Definition isNumber (v : Compiler.Value) : bool :=
  match v with
  | Compiler.Number _ => true
  | _ => false
  end.

(* ----------------------------------------------------------------- *)
(** *** A small tree to run the definitions on *)

Module Sample.

Definition SyntaxKind (k : nat) : option string :=
  match k with
  | 0 => Some "SourceFile"
  | 1 => Some "Foo"
  | 2 => Some "Bar"
  | _ => None
  end.

(** Nodes inherit [getFullText] and nothing else that is modelled. *)
Definition proto (target : JsValue) (key : string) : option (Exc JsValue) :=
  match target with
  | JNode n =>
      if key =? "getFullText" then Some (ret (JString (getFullText n)))
      else None
  | _ => None
  end.

Definition quoted (s : string) : string :=
  String.String Js.dquote (s ++ String.String Js.dquote EmptyString)%string.

Definition a : Node :=
  MkNode 1 1 " a"
         [("count", JNumber 10); ("text", JString (quoted "foo"));
          ("empty", JString EmptyString); ("zero", JNumber 0)] [].
Definition d : Node := MkNode 4 1 "d" [] [].
Definition b : Node := MkNode 2 2 "b(d)" [("body", JNode d)] [d].
Definition c : Node := MkNode 3 1 "c" [] [].
Definition root : Node :=
  MkNode 0 0 " a b(d) c"
         [("statements", JArray [JNode a; JNode b; JNode c])] [a; b; c].

Definition rootRef : NodeRef := mkRef root [].
Definition aRef : NodeRef := mkRef a [root].
Definition bRef : NodeRef := mkRef b [root].
Definition cRef : NodeRef := mkRef c [root].
Definition dRef : NodeRef := mkRef d [b; root].

(** A node of type Foo around one of type Foo. *)
Definition nested : Node := MkNode 6 1 "n(d)" [] [d].
Definition nestedRef : NodeRef := mkRef nested [].
Definition innerRef : NodeRef := mkRef d [nested].

(** The selector [.Foo[count=10]]. *)
Definition fooWithCount : Compiler.Selector :=
  Compiler.MkSelector
    (Some (Compiler.MkSimpleSelector "Foo"
             (Some (Compiler.MkAttributeList
                      (attr "count" "=" (Compiler.Number 10)) None))))
    None.

(** A parser that accepts the one query [.Foo], reports a parse error
    of five lines on a query that starts with a bracket, and throws a
    value that is no [Error] otherwise. *)
Definition diagnostic : string :=
  "Parse error on line 1:
[
^
Expecting NODE_TYPE
got ["%string.

Definition parse (nql : string) (parser : NodeQuery.Parser nat)
  : NodeQuery.Parser nat * option NodeQuery.Thrown :=
  if nql =? ".Foo" then (NodeQuery.mkParser (Some 1), None)
  else if Js.startsWith nql "[" then (parser, Some (NodeQuery.ErrorObject diagnostic))
       else (parser, Some (NodeQuery.OtherValue 7)).

End Sample.

(* ================================================================= *)
(** ** Properties *)

Unset Implicit Arguments.

(** *** Loops and strings *)

Lemma bind_ret_l (A B : Type) (a : A) (k : A -> Exc B) :
  bind (ret a) k = k a.
Proof. reflexivity. Qed.

Lemma forEach_app (A S : Type) (f : A -> S -> Exc S) (l1 l2 : list A) (st : S) :
  forEach f (l1 ++ l2) st = bind (forEach f l1 st) (forEach f l2).
Proof.
  revert st; induction l1 as [|x l1 IH]; intros st; simpl.
  - reflexivity.
  - destruct (f x st) as [st'|]; simpl; [apply IH | reflexivity].
Qed.

Lemma substring_0_append (s t : string) :
  String.substring 0 (String.length s) (s ++ t)%string = s.
Proof.
  induction s as [|c s IH]; simpl.
  - destruct t; reflexivity.
  - now rewrite IH.
Qed.

Lemma length_append (s t : string) :
  String.length (s ++ t)%string = String.length s + String.length t.
Proof. induction s as [|c s IH]; simpl; [reflexivity | now rewrite IH]. Qed.

Lemma append_empty_r (s : string) : (s ++ EmptyString)%string = s.
Proof. induction s as [|c s IH]; simpl; [reflexivity | now rewrite IH]. Qed.

Lemma prefix_refl (s : string) : String.prefix s s = true.
Proof.
  induction s as [|c s IH]; simpl; [reflexivity|].
  destruct (ascii_dec c c); [assumption | contradiction].
Qed.

Lemma prefix_empty (s : string) : String.prefix EmptyString s = true.
Proof. destruct s; reflexivity. Qed.

Lemma prefix_append (s t u : string) :
  String.prefix t u = true -> String.prefix (s ++ t)%string (s ++ u)%string = true.
Proof.
  intros H; induction s as [|c s IH]; simpl; [assumption|].
  destruct (ascii_dec c c); [assumption | contradiction].
Qed.

(** Joining what [split] produced gives the string back. *)
Lemma join_split (sep : ascii) (s : string) :
  Js.join sep (Js.split sep s) = s.
Proof.
  unfold Js.join; induction s as [|c s IH]; simpl; [reflexivity|].
  destruct (Ascii.eqb_spec c sep) as [->|Hne].
  - simpl. destruct (Js.split sep s) as [|w ws] eqn:E.
    + simpl in IH. now subst s.
    + now rewrite IH.
  - destruct (Js.split sep s) as [|w ws] eqn:E.
    + simpl in IH. now subst s.
    + simpl in *. destruct ws; simpl in *; now subst s.
Qed.

(** The first [n] pieces, joined, start the join of all pieces. *)
Lemma join_firstn_prefix (sep : ascii) (n : nat) (ls : list string) :
  String.prefix (Js.join sep (firstn n ls)) (Js.join sep ls) = true.
Proof.
  unfold Js.join; revert n; induction ls as [|w ws IH]; intros n.
  - rewrite firstn_nil. reflexivity.
  - destruct n as [|n]; [apply prefix_empty|].
    specialize (IH n). simpl firstn.
    destruct ws as [|w' ws].
    + rewrite firstn_nil. simpl. apply prefix_refl.
    + destruct n as [|n].
      * simpl.
        rewrite <- (append_empty_r w) at 1.
        apply prefix_append, prefix_empty.
      * change (firstn (S n) (w' :: ws)) with (w' :: firstn n ws) in *.
        change (String.concat (String.String sep EmptyString) (w :: w' :: firstn n ws))
          with (w ++ String.String sep EmptyString
                  ++ String.concat (String.String sep EmptyString) (w' :: firstn n ws))%string.
        change (String.concat (String.String sep EmptyString) (w :: w' :: ws))
          with (w ++ String.String sep EmptyString
                  ++ String.concat (String.String sep EmptyString) (w' :: ws))%string.
        apply prefix_append. apply (prefix_append (String.String sep EmptyString)).
        exact IH.
Qed.

(** *** The Value family *)

(** A target that is not an array always renders. *)
Lemma actualValue_total (this : Compiler.Value) (node : JsValue) :
  isArray node = false -> exists s, Compiler.actualValue this node = Some s.
Proof.
  intros H.
  assert (exists s, Compiler.Value_actualValue node = Some s) as [s Hs]
    by (destruct node; try discriminate; eexists; reflexivity).
  destruct this; simpl; unfold Compiler.String_actualValue;
    rewrite ?Hs; eexists; reflexivity.
Qed.

(** An array target makes every atom throw. *)
Lemma actualValue_array (this : Compiler.Value) (items : list JsValue) :
  Compiler.actualValue this (JArray items) = None.
Proof. destruct this; reflexivity. Qed.

Ltac not_among H :=
  repeat match goal with
    | |- context [String.eqb ?op ?lit] =>
        let E := fresh "E" in
        destruct (String.eqb_spec op lit) as [E|E];
        [ exfalso; apply H; rewrite E; simpl; tauto | clear E ]
    end.

Lemma Value_match_default (this : Compiler.Value) (node : JsValue) (op : string) :
  ~ In op valueCases ->
  Compiler.Value_match this node op
  = bind (Compiler.actualValue this node)
         (fun actual => ret (String.eqb actual (Compiler.expectedValue this))).
Proof.
  intros H. unfold Compiler.Value_match.
  destruct (Compiler.actualValue this node) as [actual|]; simpl; [|reflexivity].
  not_among H. reflexivity.
Qed.

Lemma Number_match_default (this : Compiler.Value) (node : JsValue) (op : string) :
  ~ In op numberCases ->
  Compiler.Number_match this node op
  = bind (Compiler.actualValue this node)
         (fun actual => ret (String.eqb actual (Compiler.expectedValue this))).
Proof.
  intros H. unfold Compiler.Number_match.
  destruct (Compiler.actualValue this node) as [actual|]; simpl; [|reflexivity].
  not_among H. reflexivity.
Qed.

Lemma match_eq (this : Compiler.Value) (node : JsValue) :
  Compiler.match_ this node "=="
  = bind (Compiler.actualValue this node)
         (fun actual => ret (String.eqb actual (Compiler.expectedValue this))).
Proof.
  destruct this; simpl;
    first [ apply Number_match_default | apply Value_match_default ];
    simpl; intuition discriminate.
Qed.

Lemma match_neq (this : Compiler.Value) (node : JsValue) :
  Compiler.match_ this node "!="
  = bind (Compiler.actualValue this node)
         (fun actual => ret (negb (String.eqb actual (Compiler.expectedValue this)))).
Proof.
  assert (Compiler.Value_match this node "!=" = bind (Compiler.actualValue this node)
         (fun actual => ret (negb (String.eqb actual (Compiler.expectedValue this)))))
    as HV
    by (unfold Compiler.Value_match;
        destruct (Compiler.actualValue this node); reflexivity).
  assert (Compiler.Number_match this node "!=" = bind (Compiler.actualValue this node)
         (fun actual => ret (negb (String.eqb actual (Compiler.expectedValue this)))))
    as HN
    by (unfold Compiler.Number_match;
        destruct (Compiler.actualValue this node); reflexivity).
  destruct this; assumption.
Qed.

Lemma match_throws_iff (this : Compiler.Value) (node : JsValue) (op : string) :
  Compiler.match_ this node op = None <-> Compiler.actualValue this node = None.
Proof.
  assert (Compiler.Value_match this node op = None
          <-> Compiler.actualValue this node = None) as HV.
  { unfold Compiler.Value_match.
    destruct (Compiler.actualValue this node) as [actual|]; simpl; [|tauto].
    repeat match goal with
      | |- context [if ?c then _ else _] => destruct c
      end; split; discriminate. }
  assert (Compiler.Number_match this node op = None
          <-> Compiler.actualValue this node = None) as HN.
  { unfold Compiler.Number_match.
    destruct (Compiler.actualValue this node) as [actual|]; simpl; [|tauto].
    repeat match goal with
      | |- context [if ?c then _ else _] => destruct c
      end; split; discriminate. }
  destruct this; simpl; assumption.
Qed.

(** C9.  An operator that is not one of the cases of [Value.match]
    (of [Number.match] for a Number literal) is evaluated as strict
    equality of the actual and the expected value; on a Number literal
    the affix operators are therefore equality tests; and a match
    throws only when rendering the target throws, whatever the
    operator. *)
Theorem unhandled_operator_is_equality :
  (forall (this : Compiler.Value) (node : JsValue) (op : string),
      isNumber this = false -> ~ In op valueCases ->
      Compiler.match_ this node op
      = bind (Compiler.actualValue this node)
             (fun actual => ret (String.eqb actual (Compiler.expectedValue this))))
  /\ (forall (value : Z) (node : JsValue) (op : string),
         ~ In op numberCases ->
         Compiler.match_ (Compiler.Number value) node op
         = bind (Compiler.actualValue (Compiler.Number value) node)
                (fun actual =>
                   ret (String.eqb actual (Js.numberToString value))))
  /\ (forall (value : Z) (node : JsValue) (op : string),
         In op ["^="; "$="; "*="] ->
         Compiler.match_ (Compiler.Number value) node op
         = Compiler.match_ (Compiler.Number value) node "==")
  /\ (forall (this : Compiler.Value) (node : JsValue) (op : string),
         Compiler.match_ this node op = None
         <-> Compiler.actualValue this node = None).
Proof.
  split; [|split; [|split]].
  - intros this node op Hn Hop.
    destruct this; try discriminate; simpl; now apply Value_match_default.
  - intros value node op Hop. simpl. now apply Number_match_default.
  - intros value node op Hop. rewrite match_eq. simpl.
    apply Number_match_default.
    simpl in Hop. simpl.
    intuition (subst; discriminate).
  - apply match_throws_iff.
Qed.

(** On the number 123 the Number literal 12 with [^=] is no prefix
    test: it is the equality test, which fails. *)
Lemma unhandled_operator_is_equality_witness :
  Compiler.match_ (Compiler.Number 12) (JNumber 123) "^=" = Some false
  /\ Compiler.match_ (Compiler.Identifier "12") (JNumber 123) "^=" = Some true
  /\ Compiler.match_ (Compiler.Identifier "12") (JNumber 123) "~=" = Some false.
Proof.
  destruct unhandled_operator_is_equality as (Hv & Hn & Ha & _).
  split; [|split].
  - rewrite (Ha 12%Z (JNumber 123) "^=") by (simpl; tauto). reflexivity.
  - reflexivity.
  - rewrite (Hv (Compiler.Identifier "12") (JNumber 123) "~=")
      by (simpl; intuition discriminate).
    reflexivity.
Defined.

Lemma substring_strips_ends (first last : ascii) (middle : string) :
  let value := String.String first (middle ++ String.String last EmptyString)%string in
  Js.substring value 1 (Z.of_nat (String.length value) - 1) = middle.
Proof.
  intros value. unfold Js.substring, Js.clamp.
  assert (String.length value = S (S (String.length middle))) as HL
    by (unfold value; simpl; rewrite length_append; simpl; lia).
  rewrite HL.
  replace (Z.to_nat (Z.of_nat (S (S (String.length middle))) - 1))
    with (S (String.length middle)) by lia.
  replace (Nat.min (Z.to_nat 1) (S (S (String.length middle)))) with 1 by lia.
  replace (Nat.min (S (String.length middle)) (S (S (String.length middle))))
    with (S (String.length middle)) by lia.
  replace (Nat.min 1 (S (String.length middle))) with 1 by lia.
  replace (Nat.max 1 (S (String.length middle)) - 1) with (String.length middle) by lia.
  unfold value. simpl. apply substring_0_append.
Qed.

(** C7.  When the text a target renders to is one character, a middle
    part and one more character, [String.actualValue] is the middle
    part, whatever the String literal holds: one leading and one
    trailing character are dropped, and the literal matches with
    equality exactly when its value is the middle part.  The quoted
    source text of a string literal, which has its two quotes, is the
    intended case. *)
Theorem String_actualValue_strips_one_each_end :
  forall (node : JsValue) (first last : ascii) (middle value : string),
    Compiler.Value_actualValue node
    = Some (String.String first (middle ++ String.String last EmptyString)%string) ->
    Compiler.actualValue (Compiler.String value) node = Some middle
    /\ Compiler.match_ (Compiler.String value) node "=="
       = Some (String.eqb middle value).
Proof.
  intros node first last middle value H.
  assert (Compiler.actualValue (Compiler.String value) node = Some middle) as HA.
  { simpl. unfold Compiler.String_actualValue. rewrite H. simpl. unfold ret.
    f_equal. apply (substring_strips_ends first last middle). }
  split; [exact HA|].
  rewrite match_eq, HA. reflexivity.
Qed.

(** The source text of the literal foo, quotes included, compares as
    foo: the literal foo matches it, the literal bar does not, and
    neither literal decides what the text is stripped to. *)
Lemma String_actualValue_strips_one_each_end_witness :
  Compiler.Value_actualValue (JString (Sample.quoted "foo"))
  = Some (Sample.quoted "foo")
  /\ Compiler.actualValue (Compiler.String "foo") (JString (Sample.quoted "foo"))
     = Some "foo"
  /\ Compiler.match_ (Compiler.String "foo") (JString (Sample.quoted "foo")) "=="
     = Some true
  /\ Compiler.actualValue (Compiler.String "bar") (JString (Sample.quoted "foo"))
     = Some "foo"
  /\ Compiler.match_ (Compiler.String "bar") (JString (Sample.quoted "foo")) "=="
     = Some false.
Proof.
  split; [reflexivity|].
  destruct (@String_actualValue_strips_one_each_end
              (JString (Sample.quoted "foo")) Js.dquote Js.dquote "foo" "foo"
              eq_refl) as [Hfoo Hmatch].
  destruct (@String_actualValue_strips_one_each_end
              (JString (Sample.quoted "foo")) Js.dquote Js.dquote "foo" "bar"
              eq_refl) as [Hbar Hmiss].
  repeat split; assumption.
Defined.

(** A text of a single character has nothing stripped: [substring(1, 0)]
    swaps its arguments. *)
Example String_actualValue_single_character :
  Compiler.actualValue (Compiler.String "a") (JString "a") = Some "a"%string
  /\ Compiler.actualValue (Compiler.String "2") (JNumber 123) = Some "2"%string.
Proof. split; reflexivity. Qed.

(** The ordering operators of [Number.match] on a number target compare
    the decimal texts of the two numbers. *)
Lemma Number_match_ordering (value z : Z) :
  Compiler.match_ (Compiler.Number value) (JNumber z) ">"
  = Some (String.ltb (Js.numberToString value) (Js.numberToString z))
  /\ Compiler.match_ (Compiler.Number value) (JNumber z) ">="
     = Some (String.leb (Js.numberToString value) (Js.numberToString z))
  /\ Compiler.match_ (Compiler.Number value) (JNumber z) "<"
     = Some (String.ltb (Js.numberToString z) (Js.numberToString value))
  /\ Compiler.match_ (Compiler.Number value) (JNumber z) "<="
     = Some (String.leb (Js.numberToString z) (Js.numberToString value)).
Proof. repeat split. Qed.

(** [in] and [not_in] walk the expected values with the same outcome
    negated, as long as the target is rendered without throwing. *)
Lemma some_every_complement (node : JsValue) (expected : list Compiler.Value) :
  isArray node = false ->
  exists b : bool,
    some (fun e => Compiler.match_ e node "==") expected = Some b
    /\ every (fun e => Compiler.match_ e node "!=") expected = Some (negb b)
    /\ (b = true <->
        exists e, In e expected
                  /\ Compiler.actualValue e node = Some (Compiler.expectedValue e)).
Proof.
  intros Hna. induction expected as [|e es (b & Hs & He & Hb)]; simpl.
  - exists false. repeat split; try discriminate. now intros (e & [] & _).
  - rewrite match_eq, match_neq.
    destruct (actualValue_total e node Hna) as [s Hs'].
    rewrite Hs'. simpl.
    destruct (String.eqb_spec s (Compiler.expectedValue e)) as [Heq|Hne]; simpl.
    + exists true. repeat split. intros _. exists e. split; [now left | congruence].
    + exists b. repeat split; try assumption.
      * intros Hbt. apply Hb in Hbt. destruct Hbt as (e' & Hin & Ha).
        exists e'. split; [now right | assumption].
      * intros (e' & [<-|Hin] & Ha).
        -- rewrite Hs' in Ha. congruence.
        -- apply Hb. now exists e'.
Qed.

(** C6.  On a target that is not an array, [in] and [not_in] over the
    same array literal return complementary booleans: [in] is true
    exactly when the rendered target equals the expected value of some
    element, [not_in] exactly when it differs from all of them.  On a
    target that is an array both return false. *)
Theorem in_and_not_in_are_complements :
  forall (this : Compiler.ArrayValue) (node : JsValue),
    (isArray node = false ->
     exists b : bool,
       Compiler.ArrayValue_match this node "in" = Some b
       /\ Compiler.ArrayValue_match this node "not_in" = Some (negb b)
       /\ (b = true <->
           exists e, In e (Compiler.ArrayValue_expectedValue this)
                     /\ Compiler.actualValue e node = Some (Compiler.expectedValue e))
       /\ (negb b = true <->
           forall e, In e (Compiler.ArrayValue_expectedValue this) ->
                     Compiler.actualValue e node <> Some (Compiler.expectedValue e)))
    /\ (isArray node = true ->
        Compiler.ArrayValue_match this node "in" = Some false
        /\ Compiler.ArrayValue_match this node "not_in" = Some false).
Proof.
  intros this node. split; intros H.
  - destruct (some_every_complement node (Compiler.ArrayValue_expectedValue this) H)
      as (b & Hs & He & Hb).
    exists b. unfold Compiler.ArrayValue_match. simpl. rewrite H. simpl.
    split; [exact Hs|]. split; [exact He|]. split; [exact Hb|]. split.
    + intros Hnb e Hin Ha. destruct b; [discriminate|].
      assert (false = true) by (apply Hb; now exists e). discriminate.
    + intros Hall. destruct b; [|reflexivity].
      destruct (proj1 Hb eq_refl) as (e & Hin & Ha). now elim (Hall e Hin).
  - unfold Compiler.ArrayValue_match. simpl. rewrite H. split; reflexivity.
Qed.

(** The literal (1, 2, 3) against the number 2 and against an array. *)
Lemma in_and_not_in_are_complements_witness :
  (exists b : bool,
      Compiler.ArrayValue_match
        (arrayOf [Compiler.Number 1; Compiler.Number 2; Compiler.Number 3])
        (JNumber 2) "in" = Some b
      /\ Compiler.ArrayValue_match
           (arrayOf [Compiler.Number 1; Compiler.Number 2; Compiler.Number 3])
           (JNumber 2) "not_in" = Some (negb b))
  /\ Compiler.ArrayValue_match
       (arrayOf [Compiler.Number 1; Compiler.Number 2; Compiler.Number 3])
       (JArray [JNumber 2]) "in" = Some false
  /\ Compiler.ArrayValue_match
       (arrayOf [Compiler.Number 1; Compiler.Number 2; Compiler.Number 3])
       (JArray [JNumber 2]) "not_in" = Some false.
Proof.
  split.
  - destruct (proj1 (in_and_not_in_are_complements
                       (arrayOf [Compiler.Number 1; Compiler.Number 2; Compiler.Number 3])
                       (JNumber 2)) eq_refl) as (b & Hin & Hnot & _).
    exists b. split; assumption.
  - exact (proj2 (in_and_not_in_are_complements
                    (arrayOf [Compiler.Number 1; Compiler.Number 2; Compiler.Number 3])
                    (JArray [JNumber 2])) eq_refl).
Defined.

(** *** Key paths and attributes *)

Section AttributeProperties.

Variable SyntaxKind : nat -> option string.
Variable proto : JsValue -> string -> option (Exc JsValue).

Local Abbreviation resolve := (Compiler.resolve proto).
Local Abbreviation getTargetNode := (Compiler.getTargetNode proto).
Local Abbreviation getTargetNode_step := (Compiler.getTargetNode_step proto).
Local Abbreviation Attribute_match := (Compiler.Attribute_match SyntaxKind proto).

Lemma resolve_app (pre post : list string) (target : JsValue) :
  resolve (pre ++ post) target = bind (resolve pre target) (resolve post).
Proof. apply forEach_app. Qed.

Lemma resolve_falsy (keys : list string) (target : JsValue) :
  truthy target = false -> resolve keys target = Some target.
Proof.
  intros H. induction keys as [|k keys IH]; simpl; [reflexivity|].
  unfold Compiler.getTargetNode_step at 1. rewrite H. simpl. exact IH.
Qed.

Lemma step_absent (key : string) (target : JsValue) :
  truthy target = true -> ownProperty target key = None ->
  proto target key = None ->
  getTargetNode_step key target = Some JNull.
Proof.
  intros Ht Ho Hp. unfold Compiler.getTargetNode_step.
  rewrite Ht, Ho, Hp. reflexivity.
Qed.

Lemma resolve_absent (pre post : list string) (k : string) (node v : JsValue) :
  resolve pre node = Some v -> truthy v = true ->
  ownProperty v k = None -> proto v k = None ->
  resolve (pre ++ k :: post) node = Some JNull.
Proof.
  intros Hpre Ht Ho Hp. rewrite resolve_app, Hpre. simpl.
  rewrite (step_absent k v Ht Ho Hp). simpl.
  now apply resolve_falsy.
Qed.

(** C10.  Once the segments read so far have produced a falsy value,
    the remaining segments leave it alone and it is what the key
    resolves to.  On a truthy target a segment yields the own property
    when there is one, else the outcome of calling the inherited
    function when there is one, and null only when there is neither. *)
Theorem falsy_target_ends_resolution :
  (forall (key : string) (pre post : list string) (node v : JsValue),
      Js.split Js.dot key = pre ++ post ->
      resolve pre node = Some v -> truthy v = false ->
      getTargetNode key node = Some v)
  /\ (forall (k : string) (target : JsValue),
         truthy target = true ->
         (forall v, ownProperty target k = Some v ->
                    getTargetNode_step k target = Some v)
         /\ (forall call, ownProperty target k = None ->
                          proto target k = Some call ->
                          getTargetNode_step k target = call)
         /\ (ownProperty target k = None -> proto target k = None ->
             getTargetNode_step k target = Some JNull)).
Proof.
  split.
  - intros key pre post node v Hkey Hpre Hv.
    unfold Compiler.getTargetNode. rewrite Hkey, resolve_app, Hpre. simpl.
    now apply resolve_falsy.
  - intros k target Ht. unfold Compiler.getTargetNode_step. rewrite Ht. simpl.
    repeat split.
    + intros v ->. reflexivity.
    + intros call -> ->. reflexivity.
    + intros -> ->. reflexivity.
Qed.

(** C2, as the code has it.  When a segment of the key names neither an
    own property nor an inherited function of the truthy value reached
    so far, the key resolves to null whatever segments follow; null
    renders as the text null, so [[key=null]] matches the node and
    [[key=undefined]] does not. *)
Theorem absent_segment_resolves_to_null :
  forall (pre : list string) (k : string) (node v : JsValue),
    resolve pre node = Some v -> truthy v = true ->
    ownProperty v k = None -> proto v k = None ->
    (forall post, resolve (pre ++ k :: post) node = Some JNull)
    /\ Compiler.Value_actualValue JNull = Some "null"
    /\ (forall key post,
           Js.split Js.dot key = pre ++ k :: post ->
           getTargetNode key node = Some JNull
           /\ Attribute_match (attr key "=" Compiler.Null) node = Some true
           /\ Attribute_match (attr key "=" Compiler.Undefined) node = Some false).
Proof.
  intros pre k node v Hpre Ht Ho Hp.
  split; [|split].
  - intros post. now apply resolve_absent with (v := v).
  - reflexivity.
  - intros key post Hkey.
    assert (getTargetNode key node = Some JNull) as HT
      by (unfold Compiler.getTargetNode; rewrite Hkey;
          now apply resolve_absent with (v := v)).
    split; [exact HT|].
    split; simpl; rewrite HT; reflexivity.
Qed.

(** C1, the code at the input of the regression guard: on a node whose
    key resolves to the number 10, [[key>9]] does not match, because
    the texts 10 and 9 are compared. *)
Theorem number_greater_than_compares_texts :
  forall (key : string) (node : JsValue),
    getTargetNode key node = Some (JNumber 10) ->
    Attribute_match (attr key ">" (Compiler.Number 9)) node = Some false.
Proof.
  intros key node H. simpl. rewrite H. reflexivity.
Qed.

End AttributeProperties.

Lemma falsy_target_ends_resolution_witness :
  Compiler.getTargetNode Sample.proto "zero.toFixed.length" (JNode Sample.a)
  = Some (JNumber 0)
  /\ Compiler.getTargetNode_step Sample.proto "count" (JNode Sample.a)
     = Some (JNumber 10)
  /\ Compiler.getTargetNode_step Sample.proto "getFullText" (JNode Sample.a)
     = Some (JString " a")
  /\ Compiler.getTargetNode_step Sample.proto "key" (JNode Sample.a)
     = Some JNull.
Proof.
  destruct (falsy_target_ends_resolution Sample.proto) as [Hfalsy Hstep].
  destruct (Hstep "count" (JNode Sample.a) eq_refl) as (Hown & _ & _).
  destruct (Hstep "getFullText" (JNode Sample.a) eq_refl) as (_ & Hcall & _).
  destruct (Hstep "key" (JNode Sample.a) eq_refl) as (_ & _ & Habsent).
  split; [|split; [|split]].
  - apply (Hfalsy "zero.toFixed.length" ["zero"] ["toFixed"; "length"]
                  (JNode Sample.a) (JNumber 0)); reflexivity.
  - apply Hown. reflexivity.
  - apply (Hcall (Some (JString " a"))); reflexivity.
  - apply Habsent; reflexivity.
Defined.

Lemma absent_segment_resolves_to_null_witness :
  Compiler.getTargetNode Sample.proto "body.key.length" (JNode Sample.b)
  = Some JNull
  /\ Compiler.Attribute_match Sample.SyntaxKind Sample.proto
       (attr "body.key.length" "=" Compiler.Null) (JNode Sample.b) = Some true
  /\ Compiler.Attribute_match Sample.SyntaxKind Sample.proto
       (attr "body.key.length" "=" Compiler.Undefined) (JNode Sample.b)
     = Some false.
Proof.
  destruct (@absent_segment_resolves_to_null Sample.SyntaxKind Sample.proto
              ["body"] "key" (JNode Sample.b) (JNode Sample.d)
              eq_refl eq_refl eq_refl eq_refl) as (_ & _ & H).
  apply (H "body.key.length" ["length"]). reflexivity.
Defined.

(** C2 as the claim words it fails: on a node where [key] names neither
    an own property nor an inherited function, the resolved value is
    rendered as null, not as undefined, and [[key=undefined]] does not
    match. *)
Lemma absent_key_is_not_undefined :
  ownProperty (JNode Sample.a) "key" = None
  /\ Sample.proto (JNode Sample.a) "key" = None
  /\ Compiler.getTargetNode Sample.proto "key" (JNode Sample.a) = Some JNull
  /\ Compiler.actualValue Compiler.Undefined JNull = Some "null"
  /\ Compiler.Attribute_match Sample.SyntaxKind Sample.proto
       (attr "key" "=" Compiler.Undefined) (JNode Sample.a) = Some false.
Proof. repeat split. Qed.

Lemma number_greater_than_compares_texts_witness :
  Compiler.getTargetNode Sample.proto "count" (JNode Sample.a) = Some (JNumber 10)
  /\ Compiler.Attribute_match Sample.SyntaxKind Sample.proto
       (attr "count" ">" (Compiler.Number 9)) (JNode Sample.a) = Some false.
Proof.
  split; [reflexivity|].
  apply (@number_greater_than_compares_texts Sample.SyntaxKind Sample.proto
           "count" (JNode Sample.a)).
  reflexivity.
Defined.

(** *** Traversal and relationships *)

Section TraversalProperties.

Variable SyntaxKind : nat -> option string.
Variable proto : JsValue -> string -> option (Exc JsValue).

Local Abbreviation Selector_match := (Compiler.Selector_match SyntaxKind proto).
Local Abbreviation pushIfMatch := (Compiler.pushIfMatch SyntaxKind proto).
Local Abbreviation Selector_queryNodes :=
  (Compiler.Selector_queryNodes SyntaxKind proto).

Lemma typeSelector_match (nodeType : string) (rel : option string) (r : NodeRef) :
  Selector_match (typeSelector nodeType rel) (JNode (self r))
  = Some (hasType SyntaxKind nodeType r).
Proof.
  unfold hasType. simpl.
  destruct (SyntaxKind (kind (self r))) as [name|]; simpl; [|reflexivity].
  destruct (nodeType =? name); reflexivity.
Qed.

Lemma typeSelector_push (nodeType : string) (rel : option string)
      (r : NodeRef) (nodes : list NodeRef) :
  pushIfMatch (typeSelector nodeType rel) r nodes
  = Some (nodes ++ filter (hasType SyntaxKind nodeType) [r]).
Proof.
  unfold Compiler.pushIfMatch. rewrite typeSelector_match. simpl.
  destruct (hasType SyntaxKind nodeType r); [reflexivity|].
  now rewrite app_nil_r.
Qed.

Lemma preorder_from_unfold (n : Node) (up : list Node) :
  preorder_from n up
  = mkRef n up :: flat_map (fun c => preorder_from c (n :: up)) (children n).
Proof. destruct n; reflexivity. Qed.

(** The recursive visit pushes the matching descendants, in preorder,
    behind what was pushed before. *)
Lemma handleRecursiveChild_from_spec (nodeType : string) (rel : option string)
      (n : Node) :
  forall (up : list Node) (nodes : list NodeRef),
    Compiler.handleRecursiveChild_from n up
      (pushIfMatch (typeSelector nodeType rel)) nodes
    = Some (nodes ++ filter (hasType SyntaxKind nodeType)
                       (flat_map (fun c => preorder_from c (n :: up)) (children n))).
Proof.
  induction n as [i k t fs cs IH] using Node_children_ind.
  intros up nodes. simpl.
  generalize (MkNode i k t fs cs :: up) as up'. intros up'.
  revert nodes. induction IH as [|c cs Hc _ IHcs]; intros nodes; simpl.
  - now rewrite app_nil_r.
  - rewrite typeSelector_push. cbn [bind].
    rewrite Hc. cbn [bind]. rewrite IHcs.
    rewrite (preorder_from_unfold c up').
    rewrite <- !app_assoc. do 2 f_equal. simpl.
    rewrite filter_app.
    destruct (hasType SyntaxKind nodeType (mkRef c up')); reflexivity.
Qed.

(** C3.  The selector [.Foo] without relationship, queried on a node
    with descendant matching, returns the nodes of the preorder of that
    node whose type name is Foo, in that order; a node that occurs once
    in the preorder occurs at most once in the result. *)
Theorem type_selector_returns_preorder_matches :
  forall (nodeType : string) (N : NodeRef),
    Selector_queryNodes (typeSelector nodeType None) (inl N) true
    = Some (filter (hasType SyntaxKind nodeType) (preorder N))
    /\ (NoDup (preorder N) ->
        NoDup (filter (hasType SyntaxKind nodeType) (preorder N))).
Proof.
  intros nodeType [n up]. split; [|apply NoDup_filter].
  unfold Compiler.Selector_queryNodes, Compiler.Selector_queryNodes_node. simpl.
  rewrite typeSelector_push. cbn [bind].
  unfold Compiler.handleRecursiveChild, preorder.
  rewrite handleRecursiveChild_from_spec.
  rewrite preorder_from_unfold. simpl.
  destruct (hasType SyntaxKind nodeType (mkRef n up)); reflexivity.
Qed.

Lemma parentChildren_of_child (P N : Node) (up : list Node) :
  Compiler.parentChildren (mkRef N (P :: up))
  = Some (childRefs P up (children P)).
Proof. reflexivity. Qed.

Section Siblings.

Variables (P N : Node) (up : list Node).
Variables (before after : list Node).
Hypothesis first_occurrence : forall c, In c before -> id c <> id N.

Local Abbreviation node := (mkRef N (P :: up)).

Lemma sameNode_before (c : Node) :
  In c before -> sameNode (mkRef c (P :: up)) node = false.
Proof.
  intros Hin. unfold sameNode. simpl.
  apply Nat.eqb_neq. now apply first_occurrence.
Qed.

Lemma sameNode_self : sameNode node node = true.
Proof. unfold sameNode. apply Nat.eqb_refl. Qed.

(** The scan of [getNextSibling]: nothing happens before [N], [N]
    raises the flag, the node behind it is kept and the rest is
    skipped. *)
Lemma getNextSibling_scan :
  forEach
    (fun childNode (st : bool * option NodeRef) =>
       let (matched, nextSibling) := st in
       match nextSibling with
       | Some _ => ret st
       | None =>
           if matched then ret (matched, Some childNode)
           else if sameNode childNode node then ret (true, nextSibling)
                else ret st
       end)
    (childRefs P up (before ++ N :: after)) (false, None)
  = Some (true, match after with
                | [] => None
                | next :: _ => Some (mkRef next (P :: up))
                end).
Proof.
  unfold childRefs. rewrite map_app, forEach_app.
  assert (forall l, (forall c, In c l -> In c before) ->
            forEach
              (fun childNode (st : bool * option NodeRef) =>
                 let (matched, nextSibling) := st in
                 match nextSibling with
                 | Some _ => ret st
                 | None =>
                     if matched then ret (matched, Some childNode)
                     else if sameNode childNode node then ret (true, nextSibling)
                          else ret st
                 end)
              (map (fun c => mkRef c (P :: up)) l) (false, None)
            = Some (false, None)) as Hbefore.
  { induction l as [|c l IH]; intros Hsub; simpl; [reflexivity|].
    rewrite sameNode_before by (apply Hsub; now left). simpl.
    apply IH. intros c' Hin. apply Hsub. now right. }
  rewrite Hbefore by auto. cbn [bind map forEach].
  rewrite sameNode_self. cbn [bind ret].
  destruct after as [|next rest]; [reflexivity|].
  cbn [bind map forEach ret].
  generalize (mkRef next (P :: up)) as found. intros found.
  induction rest as [|c rest IH]; simpl; [reflexivity | exact IH].
Qed.

(** The scan of [handleSiblings]: the handler sees exactly the nodes
    behind [N]. *)
Lemma handleSiblings_scan (S : Type) (handler : NodeRef -> S -> Exc S) (st : S) :
  forEach
    (fun childNode (ms : bool * S) =>
       let (matched, s0) := ms in
       bind (if matched then handler childNode s0 else ret s0)
            (fun s1 => ret (if sameNode childNode node then true else matched, s1)))
    (childRefs P up (before ++ N :: after)) (false, st)
  = bind (forEach handler (childRefs P up after) st)
         (fun s => ret (true, s)).
Proof.
  unfold childRefs. rewrite map_app, forEach_app.
  assert (forall l, (forall c, In c l -> In c before) ->
            forEach
              (fun childNode (ms : bool * S) =>
                 let (matched, s0) := ms in
                 bind (if matched then handler childNode s0 else ret s0)
                      (fun s1 => ret (if sameNode childNode node then true
                                      else matched, s1)))
              (map (fun c => mkRef c (P :: up)) l) (false, st)
            = Some (false, st)) as Hbefore.
  { induction l as [|c l IH]; intros Hsub; simpl; [reflexivity|].
    rewrite sameNode_before by (apply Hsub; now left).
    apply IH. intros c' Hin. apply Hsub. now right. }
  rewrite Hbefore by auto. cbn [bind map forEach ret].
  rewrite sameNode_self.
  generalize st. clear Hbefore.
  induction after as [|c rest IH]; intros s; simpl; [reflexivity|].
  destruct (handler (mkRef c (P :: up)) s) as [s'|]; simpl; [|reflexivity].
  replace (if sameNode (mkRef c (P :: up)) node then true else true) with true
    by (now destruct (sameNode _ _)).
  apply IH.
Qed.

End Siblings.

Lemma forEach_typeSelector_push (nodeType : string) (rel : option string)
      (l nodes : list NodeRef) :
  forEach (pushIfMatch (typeSelector nodeType rel)) l nodes
  = Some (nodes ++ filter (hasType SyntaxKind nodeType) l).
Proof.
  revert nodes. induction l as [|r l IH]; intros nodes; simpl.
  - now rewrite app_nil_r.
  - rewrite typeSelector_push. cbn [bind]. rewrite IH.
    rewrite <- app_assoc. do 2 f_equal.
    simpl. destruct (hasType SyntaxKind nodeType r); reflexivity.
Qed.

(** C4.  With [N] a child of [P] (at its first occurrence among the
    children of [P]), the selector [+ .Foo] queried on [N] returns the
    child of [P] right behind [N] when there is one and its type name
    is Foo, and nothing otherwise: never more than one node. *)
Theorem adjacent_sibling_returns_next_child :
  forall (nodeType : string) (P N : Node) (up : list Node)
         (before after : list Node) (descendantMatch : bool),
    children P = before ++ N :: after ->
    (forall c, In c before -> id c <> id N) ->
    exists nodes : list NodeRef,
      Selector_queryNodes (typeSelector nodeType (Some "+"))
                          (inl (mkRef N (P :: up))) descendantMatch
      = Some nodes
      /\ nodes = match after with
                 | [] => []
                 | next :: _ =>
                     if hasType SyntaxKind nodeType (mkRef next (P :: up))
                     then [mkRef next (P :: up)] else []
                 end
      /\ List.length nodes <= 1.
Proof.
  intros nodeType P N up before after descendantMatch Hchildren Hfirst.
  eexists. split; [|split; [reflexivity|]].
  - unfold Compiler.Selector_queryNodes, Compiler.Selector_queryNodes_node,
      Compiler.findNodesByRelationship, Compiler.getNextSibling.
    simpl Compiler.hasRelationship. cbn iota.
    simpl Compiler.relationship. cbn iota.
    rewrite parentChildren_of_child, Hchildren. cbn [bind].
    rewrite (getNextSibling_scan P N up before after Hfirst).
    cbn [bind snd ret].
    destruct after as [|next rest]; [reflexivity|].
    simpl String.eqb. cbn iota.
    rewrite typeSelector_push. reflexivity.
  - destruct after as [|next rest]; simpl; [lia|].
    destruct (hasType SyntaxKind nodeType (mkRef next (P :: up))); simpl; lia.
Qed.

(** C5.  With [N] a child of [P] (at its first occurrence among the
    children of [P]), the selector [~ .Foo] queried on [N] returns the
    children of [P] behind [N] whose type name is Foo, in the order of
    the children of [P]. *)
Theorem general_sibling_returns_later_children :
  forall (nodeType : string) (P N : Node) (up : list Node)
         (before after : list Node) (descendantMatch : bool),
    children P = before ++ N :: after ->
    (forall c, In c before -> id c <> id N) ->
    Selector_queryNodes (typeSelector nodeType (Some "~"))
                        (inl (mkRef N (P :: up))) descendantMatch
    = Some (filter (hasType SyntaxKind nodeType) (childRefs P up after)).
Proof.
  intros nodeType P N up before after descendantMatch Hchildren Hfirst.
  unfold Compiler.Selector_queryNodes, Compiler.Selector_queryNodes_node,
    Compiler.findNodesByRelationship, Compiler.handleSiblings.
  simpl Compiler.hasRelationship. cbn iota.
  simpl Compiler.relationship. cbn iota.
  simpl String.eqb. cbn iota.
  rewrite parentChildren_of_child, Hchildren. cbn [bind].
  rewrite (handleSiblings_scan P N up before after Hfirst).
  rewrite forEach_typeSelector_push. reflexivity.
Qed.

End TraversalProperties.

Lemma type_selector_returns_preorder_matches_witness :
  Compiler.Selector_queryNodes Sample.SyntaxKind Sample.proto
    (typeSelector "Foo" None) (inl Sample.rootRef) true
  = Some [Sample.aRef; Sample.dRef; Sample.cRef]
  /\ NoDup [Sample.aRef; Sample.dRef; Sample.cRef].
Proof.
  destruct (type_selector_returns_preorder_matches
              Sample.SyntaxKind Sample.proto "Foo" Sample.rootRef) as [Hq Hnd].
  split; [exact Hq|].
  apply Hnd.
  repeat constructor; simpl; intuition discriminate.
Defined.

Lemma adjacent_sibling_returns_next_child_witness :
  Compiler.Selector_queryNodes Sample.SyntaxKind Sample.proto
    (typeSelector "Foo" (Some "+")) (inl Sample.bRef) true
  = Some [Sample.cRef].
Proof.
  destruct (adjacent_sibling_returns_next_child
              Sample.SyntaxKind Sample.proto "Foo"
              Sample.root Sample.b [] [Sample.a] [Sample.c] true eq_refl)
    as (nodes & Hq & Hn & _).
  - intros c [<-|[]]. discriminate.
  - subst nodes. exact Hq.
Defined.

Lemma general_sibling_returns_later_children_witness :
  Compiler.Selector_queryNodes Sample.SyntaxKind Sample.proto
    (typeSelector "Foo" (Some "~")) (inl Sample.aRef) true
  = Some [Sample.cRef].
Proof.
  apply (general_sibling_returns_later_children
           Sample.SyntaxKind Sample.proto "Foo"
           Sample.root Sample.a [] [] [Sample.b; Sample.c] true eq_refl).
  intros c [].
Defined.

(** *** The constructor of NodeQuery *)

Section ConstructorProperties.

Variable ExpressionList : Type.
Variable parse :
  string -> NodeQuery.Parser ExpressionList ->
  NodeQuery.Parser ExpressionList * option NodeQuery.Thrown.

(** C8.  The constructor follows the outcome of [parser.parse]: when it
    returns, the query holds the result the parser left; when it throws
    an Error whose message starts with Lexical error or Parse error, a
    SyntaxError is thrown whose message is the first three lines of
    that message, a prefix of it; anything else that is thrown is
    thrown again as it is.  The constructor has no access to
    [queryNodes], and a failed construction leaves no query to call
    [parse] on. *)
Theorem constructor_follows_parser :
  forall (nql : string) (parser parser' : NodeQuery.Parser ExpressionList)
         (thrown : option NodeQuery.Thrown),
    parse nql parser = (parser', thrown) ->
    match thrown with
    | None =>
        NodeQuery.new parse nql parser
        = (parser', inl (NodeQuery.mkNodeQuery (NodeQuery.yy_result parser')))
    | Some error =>
        if NodeQuery.isMalformedInput error then
          exists message : string,
            error = NodeQuery.ErrorObject message
            /\ NodeQuery.new parse nql parser
               = (parser', inr (NodeQuery.SyntaxError (NodeQuery.truncated message)))
            /\ NodeQuery.truncated message
               = Js.join Js.newline (firstn 3 (Js.split Js.newline message))
            /\ String.prefix (NodeQuery.truncated message) message = true
        else
          NodeQuery.new parse nql parser
          = (parser', inr (NodeQuery.Rethrown error))
    end.
Proof.
  intros nql parser parser' thrown Hparse.
  unfold NodeQuery.new. rewrite Hparse.
  destruct thrown as [error|]; [|reflexivity].
  destruct (NodeQuery.isMalformedInput error) eqn:Hmal; [|reflexivity].
  destruct error as [message|tag]; [|discriminate].
  exists message. repeat split.
  unfold NodeQuery.truncated, Js.slice0.
  rewrite <- (join_split Js.newline message) at 2.
  apply join_firstn_prefix.
Qed.

End ConstructorProperties.

Lemma constructor_follows_parser_witness :
  NodeQuery.new Sample.parse ".Foo" (NodeQuery.mkParser None)
  = (NodeQuery.mkParser (Some 1), inl (NodeQuery.mkNodeQuery (Some 1)))
  /\ (exists message : string,
         NodeQuery.new Sample.parse "[a=1]" (NodeQuery.mkParser None)
         = (NodeQuery.mkParser None, inr (NodeQuery.SyntaxError message))
         /\ String.prefix message Sample.diagnostic = true)
  /\ NodeQuery.new Sample.parse ".." (NodeQuery.mkParser None)
     = (NodeQuery.mkParser None,
        inr (NodeQuery.Rethrown (NodeQuery.OtherValue 7))).
Proof.
  split; [|split].
  - exact (constructor_follows_parser nat Sample.parse ".Foo"
             (NodeQuery.mkParser None) _ _ eq_refl).
  - destruct (constructor_follows_parser nat Sample.parse "[a=1]"
                (NodeQuery.mkParser None) _ _ eq_refl)
      as (message & Herr & Hnew & _ & Hprefix).
    exists (NodeQuery.truncated message). split; [exact Hnew|].
    injection Herr as <-. exact Hprefix.
  - exact (constructor_follows_parser nat Sample.parse ".."
             (NodeQuery.mkParser None) _ _ eq_refl).
Defined.

(* ================================================================= *)
(** ** Further properties of the compiled query *)

(** *** Loops that can throw *)

Lemma flatMapM_app (A B : Type) (f : A -> Exc (list B)) (l1 l2 : list A) :
  flatMapM f (l1 ++ l2)
  = bind (flatMapM f l1)
         (fun r1 => bind (flatMapM f l2) (fun r2 => ret (r1 ++ r2))).
Proof.
  induction l1 as [|x l1 IH]; simpl.
  - destruct (flatMapM f l2); reflexivity.
  - destruct (f x) as [ys|]; simpl; [|reflexivity].
    rewrite IH.
    destruct (flatMapM f l1) as [r1|]; simpl; [|reflexivity].
    destruct (flatMapM f l2) as [r2|]; simpl; [|reflexivity].
    now rewrite app_assoc.
Qed.

Lemma flatMapM_ext (A B : Type) (f g : A -> Exc (list B)) (l : list A) :
  (forall x, f x = g x) -> flatMapM f l = flatMapM g l.
Proof.
  intros H. induction l as [|x l IH]; simpl; [reflexivity|].
  now rewrite H, IH.
Qed.

Lemma flatMapM_total (A B : Type) (f : A -> Exc (list B)) (g : A -> list B)
      (l : list A) :
  (forall x, In x l -> f x = Some (g x)) -> flatMapM f l = Some (flat_map g l).
Proof.
  induction l as [|x l IH]; intros H; simpl; [reflexivity|].
  rewrite (H x) by now left. simpl.
  rewrite IH by (intros y Hy; apply H; now right). reflexivity.
Qed.

Lemma flatMapM_singletons (A : Type) (l : list A) :
  flatMapM (fun x => ret [x]) l = Some l.
Proof.
  induction l as [|x l IH]; simpl; [reflexivity|]. now rewrite IH.
Qed.

(** Mapping [f] and then [g] over the results is mapping their
    composition, throws included. *)
Lemma flatMapM_bind (A B C : Type) (f : A -> Exc (list B))
      (g : B -> Exc (list C)) (l : list A) :
  bind (flatMapM f l) (flatMapM g)
  = flatMapM (fun x => bind (f x) (flatMapM g)) l.
Proof.
  induction l as [|x l IH]; simpl; [reflexivity|].
  destruct (f x) as [ys|]; simpl; [|reflexivity].
  rewrite <- IH.
  destruct (flatMapM f l) as [zs|]; simpl.
  - rewrite flatMapM_app.
    destruct (flatMapM g ys); simpl; [|reflexivity].
    destruct (flatMapM g zs); reflexivity.
  - destruct (flatMapM g ys); reflexivity.
Qed.

Lemma filterM_app (A : Type) (p : A -> Exc bool) (l1 l2 : list A) :
  filterM p (l1 ++ l2)
  = bind (filterM p l1)
         (fun r1 => bind (filterM p l2) (fun r2 => ret (r1 ++ r2))).
Proof.
  induction l1 as [|x l1 IH]; simpl.
  - destruct (filterM p l2); reflexivity.
  - destruct (p x) as [b|]; simpl; [|reflexivity].
    rewrite IH.
    destruct (filterM p l1) as [r1|]; simpl; [|reflexivity].
    destruct (filterM p l2) as [r2|]; simpl; [|reflexivity].
    destruct b; reflexivity.
Qed.

Lemma filterM_cons (A : Type) (p : A -> Exc bool) (x : A) (l : list A) :
  filterM p (x :: l)
  = bind (filterM p [x])
         (fun r1 => bind (filterM p l) (fun r2 => ret (r1 ++ r2))).
Proof. exact (filterM_app A p [x] l). Qed.

Lemma filterM_total (A : Type) (p : A -> Exc bool) (q : A -> bool) (l : list A) :
  (forall x, In x l -> p x = Some (q x)) -> filterM p l = Some (filter q l).
Proof.
  induction l as [|x l IH]; intros H; simpl; [reflexivity|].
  rewrite (H x) by now left. simpl.
  rewrite IH by (intros y Hy; apply H; now right). simpl.
  destruct (q x); reflexivity.
Qed.

(** *** Selectors of any shape *)

Section SelectorProperties.

Variable SyntaxKind : nat -> option string.
Variable proto : JsValue -> string -> option (Exc JsValue).

Local Abbreviation pushIfMatch := (Compiler.pushIfMatch SyntaxKind proto).
Local Abbreviation accepts := (matchRef SyntaxKind proto).
Local Abbreviation Selector_queryNodes :=
  (Compiler.Selector_queryNodes SyntaxKind proto).
Local Abbreviation Selector_queryNodes_node :=
  (Compiler.Selector_queryNodes_node SyntaxKind proto).

Lemma push_filterM (this : Compiler.Selector) (r : NodeRef) (nodes : list NodeRef) :
  pushIfMatch this r nodes
  = bind (filterM (accepts this) [r]) (fun kept => ret (nodes ++ kept)).
Proof.
  unfold Compiler.pushIfMatch, matchRef. simpl.
  destruct (Compiler.Selector_match SyntaxKind proto this (JNode (self r)))
    as [[|]|]; simpl; try reflexivity.
  now rewrite app_nil_r.
Qed.

Lemma forEach_push_filterM (this : Compiler.Selector) (l nodes : list NodeRef) :
  forEach (pushIfMatch this) l nodes
  = bind (filterM (accepts this) l) (fun kept => ret (nodes ++ kept)).
Proof.
  revert nodes. induction l as [|r l IH]; intros nodes.
  - simpl. now rewrite app_nil_r.
  - rewrite filterM_cons.
    cbn [forEach]. rewrite push_filterM.
    destruct (filterM (accepts this) [r]) as [k1|]; cbn [bind ret]; [|reflexivity].
    rewrite IH.
    destruct (filterM (accepts this) l) as [k2|]; cbn [bind ret]; [|reflexivity].
    now rewrite app_assoc.
Qed.

Lemma handleRecursiveChild_from_filterM (this : Compiler.Selector) (n : Node) :
  forall (up : list Node) (nodes : list NodeRef),
    Compiler.handleRecursiveChild_from n up (pushIfMatch this) nodes
    = bind (filterM (accepts this)
                    (flat_map (fun c => preorder_from c (n :: up)) (children n)))
           (fun kept => ret (nodes ++ kept)).
Proof.
  induction n as [i k t fs cs IH] using Node_children_ind.
  intros up nodes. simpl.
  generalize (MkNode i k t fs cs :: up) as up'. intros up'.
  revert nodes. induction IH as [|c cs Hc _ IHcs]; intros nodes.
  - simpl. now rewrite app_nil_r.
  - cbn [forEach flat_map].
    rewrite (preorder_from_unfold c up').
    rewrite filterM_app, filterM_cons, push_filterM.
    destruct (filterM (accepts this) [mkRef c up']) as [k1|];
      cbn [bind ret]; [|reflexivity].
    rewrite Hc.
    destruct (filterM (accepts this)
                (flat_map (fun c0 => preorder_from c0 (c :: up')) (children c)))
      as [k2|]; cbn [bind ret]; [|reflexivity].
    rewrite IHcs.
    destruct (filterM (accepts this)
                (flat_map (fun c0 => preorder_from c0 up') cs)) as [k3|];
      cbn [bind ret]; [|reflexivity].
    now rewrite !app_assoc.
Qed.

(** X1.  A selector whose relationship is null or the empty string,
    queried on a node, returns the nodes its [match] accepts among the
    node and its descendants in preorder (among the node alone without
    descendant matching), and throws when [match] throws on any of
    them. *)
Theorem relationship_free_query_filters_preorder :
  forall (this : Compiler.Selector) (N : NodeRef) (descendantMatch : bool),
    Compiler.hasRelationship this = false ->
    Selector_queryNodes this (inl N) descendantMatch
    = filterM (accepts this) (if descendantMatch then preorder N else [N]).
Proof.
  intros this [n up] d Hrel.
  unfold Compiler.Selector_queryNodes, Compiler.Selector_queryNodes_node.
  rewrite Hrel, push_filterM.
  destruct d.
  - unfold preorder, Compiler.handleRecursiveChild. cbn [self ancestors].
    rewrite preorder_from_unfold.
    set (first := filterM (accepts this) [mkRef n up]).
    rewrite filterM_cons. subst first.
    destruct (filterM (accepts this) [mkRef n up]) as [k1|];
      cbn [bind ret]; [|reflexivity].
    cbn [app].
    rewrite handleRecursiveChild_from_filterM. reflexivity.
  - destruct (filterM (accepts this) [mkRef n up]); reflexivity.
Qed.

(** X2.  A selector with relationship [>] returns the children of the
    node its [match] accepts, in the order of [forEachChild], whatever
    [descendantMatch] is; grandchildren are never visited. *)
Theorem child_relationship_filters_children :
  forall (this : Compiler.Selector) (N : NodeRef) (descendantMatch : bool),
    Compiler.relationship this = Some ">" ->
    Selector_queryNodes this (inl N) descendantMatch
    = filterM (accepts this) (forEachChild N).
Proof.
  intros this N d Hrel.
  unfold Compiler.Selector_queryNodes, Compiler.Selector_queryNodes_node,
    Compiler.hasRelationship, Compiler.findNodesByRelationship.
  rewrite Hrel. simpl String.eqb. cbn iota. simpl negb. cbn iota.
  rewrite forEach_push_filterM.
  destruct (filterM (accepts this) (forEachChild N)); reflexivity.
Qed.

(** X3.  The sibling relationships read [node.parent]: on a node
    without parent the query throws, for [+] and for [~]. *)
Theorem sibling_query_without_parent_throws :
  forall (this : Compiler.Selector) (N : NodeRef) (descendantMatch : bool),
    ancestors N = [] ->
    Compiler.relationship this = Some "+" \/ Compiler.relationship this = Some "~" ->
    Selector_queryNodes this (inl N) descendantMatch = None.
Proof.
  intros this N d Hroot [Hrel|Hrel];
    unfold Compiler.Selector_queryNodes, Compiler.Selector_queryNodes_node,
      Compiler.hasRelationship, Compiler.findNodesByRelationship,
      Compiler.getNextSibling, Compiler.handleSiblings,
      Compiler.parentChildren, parent;
    rewrite Hrel, Hroot; reflexivity.
Qed.

(** X4.  A relationship that is none of [>], [+], [~] (and not empty)
    selects nothing: the query returns the empty list without calling
    [match]. *)
Theorem unknown_relationship_selects_nothing :
  forall (this : Compiler.Selector) (r : string) (N : NodeRef)
         (descendantMatch : bool),
    Compiler.relationship this = Some r ->
    ~ In r [EmptyString; ">"; "+"; "~"] ->
    Selector_queryNodes this (inl N) descendantMatch = Some [].
Proof.
  intros this r N d Hrel Hr.
  unfold Compiler.Selector_queryNodes, Compiler.Selector_queryNodes_node,
    Compiler.hasRelationship, Compiler.findNodesByRelationship.
  rewrite Hrel.
  not_among Hr. reflexivity.
Qed.

(** X5.  Queried on an array, a selector returns the concatenation of
    what it returns on each element, in order and without removing
    duplicates; an array of one node gives what the node gives. *)
Theorem array_query_concatenates :
  forall (this : Compiler.Selector) (l1 l2 : list NodeRef) (N : NodeRef)
         (descendantMatch : bool),
    Selector_queryNodes this (inr (l1 ++ l2)) descendantMatch
    = bind (Selector_queryNodes this (inr l1) descendantMatch)
           (fun r1 =>
              bind (Selector_queryNodes this (inr l2) descendantMatch)
                   (fun r2 => ret (r1 ++ r2)))
    /\ Selector_queryNodes this (inr [N]) descendantMatch
       = Selector_queryNodes this (inl N) descendantMatch.
Proof.
  intros this l1 l2 N d. split.
  - apply flatMapM_app.
  - simpl.
    destruct (Selector_queryNodes_node this N d) as [ys|]; simpl; [|reflexivity].
    unfold ret. now rewrite app_nil_r.
Qed.

End SelectorProperties.

(** *** Expressions *)

Lemma filter_nonempty_existsb (A : Type) (p : A -> bool) (l : list A) :
  negb (List.length (filter p l) =? 0)%nat = existsb p l.
Proof.
  induction l as [|x l IH]; simpl; [reflexivity|].
  destruct (p x); simpl; [reflexivity | exact IH].
Qed.

Lemma every_true_iff (A : Type) (p : A -> Exc bool) (l : list A) :
  every p l = Some true <-> Forall (fun x => p x = Some true) l.
Proof.
  induction l as [|x l IH]; simpl.
  - split; [constructor | reflexivity].
  - destruct (p x) as [[|]|] eqn:E; simpl.
    + rewrite IH. split.
      * intros H. now constructor.
      * intros H. now inversion H.
    + split; [discriminate|]. intros H. inversion H. congruence.
    + split; [discriminate|]. intros H. inversion H. congruence.
Qed.

Section ExpressionProperties.

Variable SyntaxKind : nat -> option string.
Variable proto : JsValue -> string -> option (Exc JsValue).

Local Abbreviation Selector_queryNodes :=
  (Compiler.Selector_queryNodes SyntaxKind proto).
Local Abbreviation Selector_queryNodes_node :=
  (Compiler.Selector_queryNodes_node SyntaxKind proto).
Local Abbreviation Expression_queryNodes :=
  (Compiler.Expression_queryNodes SyntaxKind proto).
Local Abbreviation Attribute_match := (Compiler.Attribute_match SyntaxKind proto).
Local Abbreviation getTargetNode := (Compiler.getTargetNode proto).

Lemma Selector_queryNodes_asList (this : Compiler.Selector)
      (node : NodeRef + list NodeRef) (d : bool) :
  Selector_queryNodes this node d
  = flatMapM (fun n => Selector_queryNodes_node this n d) (asList node).
Proof.
  destruct node as [n|l]; simpl; [|reflexivity].
  destruct (Selector_queryNodes_node this n d); simpl; [|reflexivity].
  now rewrite app_nil_r.
Qed.

Lemma queryLevels_flatMapM (query : Compiler.Selector -> NodeRef -> Exc (list NodeRef))
      (ss : list Compiler.Selector) :
  forall nodes : list NodeRef,
    flatMapM (fun n => queryLevels query ss [n]) nodes
    = queryLevels query ss nodes.
Proof.
  induction ss as [|s ss IH]; intros nodes.
  - simpl. apply flatMapM_singletons.
  - cbn [queryLevels].
    rewrite (flatMapM_ext _ _
               (fun n => bind (flatMapM (query s) [n]) (queryLevels query ss))
               (fun n => bind (query s n)
                              (flatMapM (fun m => queryLevels query ss [m])))).
    + rewrite <- flatMapM_bind.
      destruct (flatMapM (query s) nodes) as [next|]; simpl; [apply IH | reflexivity].
    + intros n. simpl.
      destruct (query s n) as [ys|]; simpl; [|reflexivity].
      rewrite app_nil_r. symmetry. apply IH.
Qed.

(** X6.  An expression is evaluated level by level: its first selector
    is queried on the input, each further selector on every node the
    selector before it returned, and the results are concatenated in
    order; a throw anywhere makes the whole query throw. *)
Theorem expression_query_is_level_by_level :
  forall (e : Compiler.Expression) (node : NodeRef + list NodeRef)
         (descendantMatch : bool),
    Expression_queryNodes e node descendantMatch
    = queryLevels (fun s n => Selector_queryNodes_node s n descendantMatch)
                  (selectors e) (asList node).
Proof.
  intros e node d. revert node.
  induction e as [s|s r IH] using Expression_rest_ind; intros node;
    cbn [Compiler.Expression_queryNodes selectors queryLevels];
    rewrite Selector_queryNodes_asList.
  - reflexivity.
  - destruct (flatMapM (fun n => Selector_queryNodes_node s n d) (asList node))
      as [ms|]; cbn [bind]; [|reflexivity].
    rewrite (flatMapM_ext _ _ _
               (fun m => queryLevels
                           (fun s0 n => Selector_queryNodes_node s0 n d)
                           (selectors r) [m]))
      by (intros m; apply (IH (inl m))).
    apply queryLevels_flatMapM.
Qed.

Lemma typeSelector_query_descendants (nodeType : string) (N : NodeRef) :
  Selector_queryNodes_node (typeSelector nodeType None) N true
  = Some (filter (hasType SyntaxKind nodeType) (preorder N)).
Proof.
  destruct N as [n up].
  unfold Compiler.Selector_queryNodes_node. simpl Compiler.hasRelationship.
  cbn iota. rewrite typeSelector_push. cbn [bind].
  unfold Compiler.handleRecursiveChild, preorder. cbn [self ancestors].
  rewrite handleRecursiveChild_from_spec, preorder_from_unfold. simpl.
  destruct (hasType SyntaxKind nodeType (mkRef n up)); reflexivity.
Qed.

Lemma typeSelector_query_children (nodeType : string) (N : NodeRef) (d : bool) :
  Selector_queryNodes_node (typeSelector nodeType (Some ">")) N d
  = Some (filter (hasType SyntaxKind nodeType) (forEachChild N)).
Proof.
  unfold Compiler.Selector_queryNodes_node, Compiler.findNodesByRelationship.
  simpl. apply forEach_typeSelector_push.
Qed.

(** X7.  The query [.A > .B] returns, for each node of type A in the
    preorder of the input, its children of type B; the query [.A .B]
    returns, for each such node, the nodes of type B in its own
    preorder, so a B below two nested A is returned once for each. *)
Theorem two_step_type_queries :
  forall (A B : string) (N : NodeRef),
    Expression_queryNodes
      (Compiler.MkExpression (typeSelector A None)
         (Some (Compiler.MkExpression (typeSelector B (Some ">")) None)))
      (inl N) true
    = Some (flat_map (fun a => filter (hasType SyntaxKind B) (forEachChild a))
                     (filter (hasType SyntaxKind A) (preorder N)))
    /\ Expression_queryNodes
         (Compiler.MkExpression (typeSelector A None)
            (Some (Compiler.MkExpression (typeSelector B None) None)))
         (inl N) true
       = Some (flat_map (fun a => filter (hasType SyntaxKind B) (preorder a))
                        (filter (hasType SyntaxKind A) (preorder N))).
Proof.
  intros A B N.
  split; cbn [Compiler.Expression_queryNodes Compiler.Selector_queryNodes];
    rewrite typeSelector_query_descendants; cbn [bind];
    apply flatMapM_total; intros a _.
  - rewrite typeSelector_query_children. reflexivity.
  - rewrite typeSelector_query_descendants. reflexivity.
Qed.

(** X8.  [Expression.match] on a node runs the query with descendant
    matching: for the expression [.A] it is true when the node or any of
    its descendants has type A, also when the node itself has not. *)
Theorem expression_match_sees_descendants :
  forall (A : string) (N : NodeRef),
    Compiler.Expression_match SyntaxKind proto
      (Compiler.MkExpression (typeSelector A None) None) N
    = Some (existsb (hasType SyntaxKind A) (preorder N)).
Proof.
  intros A N. unfold Compiler.Expression_match.
  cbn [Compiler.Expression_queryNodes Compiler.Selector_queryNodes].
  rewrite typeSelector_query_descendants. cbn [bind ret].
  now rewrite filter_nonempty_existsb.
Qed.

Lemma AttributeList_match_unfold (a : Compiler.Attribute)
      (rest : option Compiler.AttributeList) (node : JsValue) :
  Compiler.AttributeList_match SyntaxKind proto
    (Compiler.MkAttributeList a rest) node
  = andThen (Attribute_match a node)
            (match rest with
             | None => ret true
             | Some l => Compiler.AttributeList_match SyntaxKind proto l node
             end).
Proof. reflexivity. Qed.

(** X9.  An attribute list matches as [every] over its attributes in
    order: it is true exactly when every attribute matches, and an
    attribute that does not match hides the ones behind it, also one
    that would throw. *)
Theorem attribute_list_is_conjunction :
  forall (l : Compiler.AttributeList) (node : JsValue),
    Compiler.AttributeList_match SyntaxKind proto l node
    = every (fun a => Attribute_match a node) (attributes l)
    /\ (Compiler.AttributeList_match SyntaxKind proto l node = Some true
        <-> Forall (fun a => Attribute_match a node = Some true) (attributes l)).
Proof.
  intros l node.
  assert (Compiler.AttributeList_match SyntaxKind proto l node
          = every (fun a => Attribute_match a node) (attributes l)) as H.
  { induction l as [a|a r IH] using AttributeList_rest_ind;
      rewrite AttributeList_match_unfold; cbn [attributes every];
      unfold andThen.
    - destruct (Attribute_match a node) as [[|]|]; reflexivity.
    - rewrite IH. reflexivity. }
  split; [exact H|]. rewrite H. apply every_true_iff.
Qed.

(** X10.  An attribute whose value is a selector ignores its operator
    and applies the selector to what the key resolves to: on null or
    undefined (a key that does not resolve) reading the kind throws, on
    a node the simple selector decides, on any other value the result is
    false. *)
Theorem selector_valued_attribute :
  forall (key op : string) (ss : Compiler.SimpleSelector) (rel : option string)
         (node target : JsValue),
    getTargetNode key node = Some target ->
    Attribute_match
      (Compiler.MkAttribute key
         (Compiler.OfSelector (Compiler.MkSelector (Some ss) rel)) op) node
    = match target with
      | JNull | JUndefined => None
      | JNode _ => Compiler.SimpleSelector_match SyntaxKind proto ss target
      | _ => Some false
      end.
Proof.
  intros key op ss rel node target H.
  cbn [Compiler.Attribute_match Compiler.Selector_match]. rewrite H. cbn [bind].
  destruct ss as [nodeType al]. destruct target; reflexivity.
Qed.

(** X11.  An atom compared with a key that resolves to an array throws,
    whatever the atom and the operator: an array has no source text. *)
Theorem atom_against_array_throws :
  forall (key op : string) (v : Compiler.Value) (node : JsValue)
         (items : list JsValue),
    getTargetNode key node = Some (JArray items) ->
    Attribute_match (attr key op v) node = None.
Proof.
  intros key op v node items H.
  unfold attr. cbn [Compiler.Attribute_match]. rewrite H. cbn [bind].
  apply match_throws_iff. apply actualValue_array.
Qed.

End ExpressionProperties.

(** *** Operators of the Value family *)

Lemma compare_refl (s : string) : String.compare s s = Eq.
Proof.
  pose proof (String.compare_antisym s s) as H.
  destruct (String.compare s s); try reflexivity; discriminate.
Qed.

Lemma ltb_negb_leb (s t : string) : String.ltb s t = negb (String.leb t s).
Proof.
  unfold String.ltb, String.leb. rewrite (String.compare_antisym t s).
  destruct (String.compare s t); reflexivity.
Qed.

Lemma leb_ltb_or_eqb (s t : string) :
  String.leb s t = String.ltb s t || String.eqb t s.
Proof.
  unfold String.ltb, String.leb.
  destruct (String.eqb_spec t s) as [->|Hne].
  - rewrite compare_refl. reflexivity.
  - destruct (String.compare s t) eqn:E; try reflexivity.
    apply String.compare_eq_iff in E. congruence.
Qed.

(** Every operator of [Value.match] and [Number.match] is a test on
    the rendered target and the expected text. *)
Lemma match_as_test (this : Compiler.Value) (node : JsValue) (op : string)
      (test : string -> string -> bool) :
  In (op, test) [("!=", fun a e => negb (String.eqb a e));
                 (">=", Js.ge); (">", Js.gt); ("<=", Js.le); ("<", Js.lt)] ->
  Compiler.match_ this node op
  = bind (Compiler.actualValue this node)
         (fun actual => ret (test actual (Compiler.expectedValue this))).
Proof.
  intros H.
  assert (Compiler.Value_match this node op
          = bind (Compiler.actualValue this node)
                 (fun actual => ret (test actual (Compiler.expectedValue this))))
    as HV
    by (unfold Compiler.Value_match;
        destruct (Compiler.actualValue this node); simpl; [|reflexivity];
        destruct H as [H|[H|[H|[H|[H|[]]]]]]; inversion H; subst; reflexivity).
  assert (Compiler.Number_match this node op
          = bind (Compiler.actualValue this node)
                 (fun actual => ret (test actual (Compiler.expectedValue this))))
    as HN
    by (unfold Compiler.Number_match;
        destruct (Compiler.actualValue this node); simpl; [|reflexivity];
        destruct H as [H|[H|[H|[H|[H|[]]]]]]; inversion H; subst; reflexivity).
  destruct this; assumption.
Qed.

(** X12.  For every atom and every target the comparison operators
    agree with each other: [!=] is the negation of [==], [>] of [<=],
    [<] of [>=], and [>=] holds when [>] or [==] does; all of them throw
    together. *)
Theorem comparison_operators_are_consistent :
  forall (this : Compiler.Value) (node : JsValue),
    Compiler.match_ this node "!="
    = option_map negb (Compiler.match_ this node "==")
    /\ Compiler.match_ this node ">"
       = option_map negb (Compiler.match_ this node "<=")
    /\ Compiler.match_ this node "<"
       = option_map negb (Compiler.match_ this node ">=")
    /\ Compiler.match_ this node ">="
       = bind (Compiler.match_ this node ">")
              (fun gt => bind (Compiler.match_ this node "==")
                              (fun eq => ret (gt || eq))).
Proof.
  intros this node.
  rewrite match_eq.
  rewrite (match_as_test this node "!=" (fun a e => negb (String.eqb a e)))
    by (simpl; tauto).
  rewrite (match_as_test this node ">=" Js.ge) by (simpl; tauto).
  rewrite (match_as_test this node ">" Js.gt) by (simpl; tauto).
  rewrite (match_as_test this node "<=" Js.le) by (simpl; tauto).
  rewrite (match_as_test this node "<" Js.lt) by (simpl; tauto).
  destruct (Compiler.actualValue this node) as [actual|]; simpl;
    [|repeat split; reflexivity].
  unfold Js.gt, Js.ge, Js.lt, Js.le, ret.
  repeat split; f_equal.
  - apply ltb_negb_leb.
  - apply ltb_negb_leb.
  - apply leb_ltb_or_eqb.
Qed.

Lemma endsWith_refl (s : string) : Js.endsWith s s = true.
Proof.
  unfold Js.endsWith. rewrite Nat.leb_refl, Nat.sub_diag. simpl.
  rewrite <- (append_empty_r s) at 2.
  rewrite substring_0_append. apply String.eqb_refl.
Qed.

Lemma startsWith_includes (s t : string) :
  Js.startsWith s t = true -> Js.includes s t = true.
Proof.
  unfold Js.startsWith. intros H. destruct s as [|c s].
  - change (String.prefix t EmptyString || false = true). now rewrite H.
  - change (String.prefix t (String.String c s) || Js.includes s t = true).
    now rewrite H.
Qed.

Lemma substring_includes (k : nat) :
  forall s t : string,
    String.substring k (String.length t) s = t -> Js.includes s t = true.
Proof.
  induction k as [|k IH]; intros s t H.
  - apply startsWith_includes. now apply String.prefix_correct.
  - destruct s as [|c s]; simpl in H.
    + subst t. reflexivity.
    + change (String.prefix t (String.String c s) || Js.includes s t = true).
      rewrite (IH s t H). apply orb_true_r.
Qed.

Lemma endsWith_includes (s t : string) :
  Js.endsWith s t = true -> Js.includes s t = true.
Proof.
  unfold Js.endsWith. intros H. apply andb_prop in H as [_ H].
  apply String.eqb_eq in H. now apply substring_includes in H.
Qed.

Lemma Value_match_affix (this : Compiler.Value) (node : JsValue) :
  isNumber this = false ->
  Compiler.match_ this node "^="
  = bind (Compiler.actualValue this node)
         (fun a => ret (Js.startsWith a (Compiler.expectedValue this)))
  /\ Compiler.match_ this node "$="
     = bind (Compiler.actualValue this node)
            (fun a => ret (Js.endsWith a (Compiler.expectedValue this)))
  /\ Compiler.match_ this node "*="
     = bind (Compiler.actualValue this node)
            (fun a => ret (Js.includes a (Compiler.expectedValue this))).
Proof.
  intros H.
  assert (Compiler.match_ this node = Compiler.Value_match this node) as ->
    by (destruct this; try discriminate; reflexivity).
  unfold Compiler.Value_match.
  destruct (Compiler.actualValue this node); repeat split; reflexivity.
Qed.

(** X13.  For an atom that is not a Number the affix operators are
    ordered by strength: a target that matches with [==] matches with
    [^=] and with [$=], and one that matches with [^=] or with [$=]
    matches with [*=]. *)
Theorem affix_operators_weaken :
  forall (this : Compiler.Value) (node : JsValue),
    isNumber this = false ->
    (Compiler.match_ this node "==" = Some true ->
     Compiler.match_ this node "^=" = Some true
     /\ Compiler.match_ this node "$=" = Some true)
    /\ (Compiler.match_ this node "^=" = Some true ->
        Compiler.match_ this node "*=" = Some true)
    /\ (Compiler.match_ this node "$=" = Some true ->
        Compiler.match_ this node "*=" = Some true).
Proof.
  intros this node Hn.
  destruct (Value_match_affix this node Hn) as (-> & -> & ->).
  rewrite match_eq.
  destruct (Compiler.actualValue this node) as [actual|]; simpl;
    [|repeat split; discriminate].
  unfold ret. repeat split.
  - injection H as H. apply String.eqb_eq in H. subst actual.
    f_equal. apply prefix_refl.
  - injection H as H. apply String.eqb_eq in H. subst actual.
    f_equal. apply endsWith_refl.
  - intros H. injection H as H. f_equal. now apply startsWith_includes.
  - intros H. injection H as H. f_equal. now apply endsWith_includes.
Qed.

(** *** Array literals *)

Lemma compareEqual_loop_iff (items : list JsValue) :
  forall expected : list Compiler.Value,
    List.length expected = List.length items ->
    (Compiler.compareEqual_loop items expected = Some true
     <-> Forall2 (fun a e => Compiler.match_ e a "==" = Some true) items expected).
Proof.
  induction items as [|a items IH]; intros [|e expected] Hlen;
    try discriminate; simpl.
  - split; [constructor | reflexivity].
  - injection Hlen as Hlen. specialize (IH expected Hlen).
    destruct (Compiler.match_ e a "==") as [[|]|] eqn:E; simpl.
    + rewrite IH. split.
      * intros H. now constructor.
      * intros H. now inversion H.
    + split; [discriminate|]. intros H. inversion H. congruence.
    + split; [discriminate|]. intros H. inversion H. congruence.
Qed.

(** X14.  An array literal matches an array target with [==] exactly
    when both have the same length and every element of the target
    matches the literal's element at its position. *)
Theorem array_equality_is_positional :
  forall (this : Compiler.ArrayValue) (items : list JsValue),
    Compiler.ArrayValue_match this (JArray items) "==" = Some true
    <-> Forall2 (fun a e => Compiler.match_ e a "==" = Some true)
                items (Compiler.ArrayValue_expectedValue this).
Proof.
  intros this items. unfold Compiler.ArrayValue_match. simpl.
  unfold Compiler.compareEqual.
  destruct (Nat.eqb_spec (List.length (Compiler.ArrayValue_expectedValue this))
                         (List.length items)) as [Hlen|Hlen]; simpl.
  - now apply compareEqual_loop_iff.
  - split; [discriminate|]. intros H. apply Forall2_length in H. congruence.
Qed.

Lemma compare_loops_complement (items : list JsValue) :
  Forall (fun a => isArray a = false) items ->
  forall expected : list Compiler.Value,
  exists b : bool,
    Compiler.compareEqual_loop items expected = Some b
    /\ Compiler.compareNotEqual_loop items expected = Some (negb b).
Proof.
  induction 1 as [|a items Ha _ IH]; intros expected.
  - exists true. destruct expected; split; reflexivity.
  - destruct expected as [|e expected]; [exists true; split; reflexivity|].
    simpl. rewrite match_eq, match_neq.
    destruct (actualValue_total e a Ha) as [s ->]. simpl.
    destruct (String.eqb s (Compiler.expectedValue e)); simpl.
    + apply IH.
    + exists false. split; reflexivity.
Qed.

(** X15.  With [==] and [!=] an array literal needs an array target: on
    any other target both are false.  On an array target whose elements
    are not arrays the two are complementary, and a different length
    alone decides the outcome. *)
Theorem array_comparison_needs_array_target :
  forall (this : Compiler.ArrayValue) (node : JsValue),
    (isArray node = false ->
     Compiler.ArrayValue_match this node "==" = Some false
     /\ Compiler.ArrayValue_match this node "!=" = Some false)
    /\ (forall items,
           node = JArray items ->
           Forall (fun a => isArray a = false) items ->
           exists b : bool,
             Compiler.ArrayValue_match this node "==" = Some b
             /\ Compiler.ArrayValue_match this node "!=" = Some (negb b)
             /\ (List.length items
                 <> List.length (Compiler.ArrayValue_expectedValue this) ->
                 b = false)).
Proof.
  intros this node. split.
  - intros H. destruct node; try discriminate; split; reflexivity.
  - intros items -> Hitems.
    unfold Compiler.ArrayValue_match. simpl.
    unfold Compiler.compareEqual, Compiler.compareNotEqual.
    destruct (Nat.eqb_spec (List.length (Compiler.ArrayValue_expectedValue this))
                           (List.length items)) as [Hlen|Hlen]; simpl.
    + destruct (compare_loops_complement items Hitems
                  (Compiler.ArrayValue_expectedValue this)) as (b & He & Hn).
      exists b. repeat split; try assumption. intros Hne. congruence.
    + exists false. repeat split.
Qed.

(** *** toString *)

(** X16.  The text of an expression is the texts of its selectors
    joined by single spaces. *)
Theorem expression_text_joins_selectors :
  forall e : Compiler.Expression,
    Compiler.Expression_toString e
    = bind (mapM Compiler.Selector_toString (selectors e))
           (fun texts => ret (String.concat " " texts)).
Proof.
  induction e as [s|s r IH] using Expression_rest_ind;
    cbn [Compiler.Expression_toString selectors mapM].
  - destruct (Compiler.Selector_toString s); reflexivity.
  - rewrite IH. destruct r as [s' r'].
    cbn [selectors mapM].
    destruct (Compiler.Selector_toString s) as [head|]; cbn [bind ret];
      [|reflexivity].
    destruct (Compiler.Selector_toString s') as [second|]; cbn [bind ret];
      [|reflexivity].
    destruct (mapM Compiler.Selector_toString
                (match r' with Some r0 => selectors r0 | None => [] end));
      reflexivity.
Qed.

(** X17.  An array literal all of whose cells hold a value prints
    without throwing, as the texts of its expected values joined by
    single spaces. *)
Theorem array_text_joins_expected_values :
  forall a : Compiler.ArrayValue,
    allCellsFilled a = true ->
    Compiler.ArrayValue_toString a
    = Some (String.concat " "
              (map Compiler.Value_toString (Compiler.ArrayValue_expectedValue a))).
Proof.
  induction a as [v|v r IH] using ArrayValue_rest_ind; intros H.
  - destruct v as [v|]; [reflexivity | discriminate].
  - destruct v as [v|]; [|discriminate].
    cbn [allCellsFilled andb] in H.
    cbn [Compiler.ArrayValue_toString Compiler.ArrayValue_expectedValue].
    rewrite (IH H). cbn [bind ret app map].
    destruct r as [[v'|] r']; [|discriminate].
    reflexivity.
Qed.

(** X18.  The text of an attribute does not tell null from undefined
    (both print as an object without [toString]), and an operator that
    is neither a set operator nor one of the eight comparison operators
    prints as the equals sign. *)
Theorem attribute_text_loses_information :
  (forall key op : string,
      Compiler.Attribute_toString (attr key op Compiler.Null)
      = Compiler.Attribute_toString (attr key op Compiler.Undefined))
  /\ (forall (key op : string) (v : Compiler.Value),
         ~ In op ("not_in" :: "in" :: valueCases) ->
         Compiler.Attribute_toString (attr key op v)
         = Some (key ++ "=" ++ Compiler.Value_toString v)%string).
Proof.
  split.
  - reflexivity.
  - intros key op v H. unfold attr. cbn [Compiler.Attribute_toString bind ret].
    unfold Compiler.operatorText.
    not_among H. reflexivity.
Qed.

(** *** Key paths *)

Lemma split_nonempty (sep : ascii) (s : string) : Js.split sep s <> [].
Proof.
  induction s as [|c s IH]; simpl; [discriminate|].
  destruct (Ascii.eqb c sep); [discriminate|].
  destruct (Js.split sep s); discriminate.
Qed.

Lemma split_app_sep (sep : ascii) (s t : string) :
  Js.split sep (s ++ String.String sep t)%string
  = Js.split sep s ++ Js.split sep t.
Proof.
  induction s as [|c s IH]; simpl.
  - now rewrite Ascii.eqb_refl.
  - destruct (Ascii.eqb c sep); [now rewrite IH|].
    rewrite IH.
    destruct (Js.split sep s) as [|w ws] eqn:E; [|reflexivity].
    now elim (split_nonempty sep s).
Qed.

(** X19.  A dotted key is resolved part by part: the key [k1.k2]
    resolves to what [k2] resolves to on the value [k1] resolves to. *)
Theorem dotted_key_resolves_in_sequence :
  forall (proto : JsValue -> string -> option (Exc JsValue))
         (k1 k2 : string) (node : JsValue),
    Compiler.getTargetNode proto (k1 ++ String.String Js.dot k2)%string node
    = bind (Compiler.getTargetNode proto k1 node)
           (Compiler.getTargetNode proto k2).
Proof.
  intros proto k1 k2 node. unfold Compiler.getTargetNode.
  rewrite split_app_sep. apply resolve_app.
Qed.

(** *** The entry point *)

Lemma split_pieces_have_no_sep (sep : ascii) (s : string) :
  Forall (fun w => contains sep w = false) (Js.split sep s).
Proof.
  induction s as [|c s IH]; simpl.
  - repeat constructor.
  - destruct (Ascii.eqb c sep) eqn:E.
    + constructor; [reflexivity | exact IH].
    + destruct (Js.split sep s) as [|w ws]; [repeat constructor; simpl; now rewrite E|].
      inversion IH as [|? ? Hw Hws]; subst.
      constructor; [simpl; now rewrite E, Hw | exact Hws].
Qed.

Lemma split_piece (sep : ascii) (w : string) :
  contains sep w = false -> Js.split sep w = [w].
Proof.
  induction w as [|c w IH]; simpl; intros H; [reflexivity|].
  apply orb_false_elim in H as [Hc Hw].
  rewrite Hc, (IH Hw). reflexivity.
Qed.

Lemma split_join (sep : ascii) (ls : list string) :
  ls <> [] -> Forall (fun w => contains sep w = false) ls ->
  Js.split sep (Js.join sep ls) = ls.
Proof.
  unfold Js.join. induction ls as [|w ls IH]; intros Hne Hall; [contradiction|].
  inversion Hall as [|? ? Hw Hls]; subst.
  destruct ls as [|w' ls].
  - simpl. now apply split_piece.
  - change (String.concat (String.String sep EmptyString) (w :: w' :: ls))
      with (w ++ String.String sep
                   (String.concat (String.String sep EmptyString) (w' :: ls)))%string.
    rewrite split_app_sep, (split_piece sep w Hw), IH by (discriminate || assumption).
    reflexivity.
Qed.

Lemma Forall_firstn_keeps (A : Type) (P : A -> Prop) (n : nat) (l : list A) :
  Forall P l -> Forall P (firstn n l).
Proof.
  intros H. revert n. induction H as [|x l Hx _ IH]; intros [|n]; simpl;
    constructor; auto.
Qed.

(** X20.  The message of the SyntaxError has at most three lines, and
    a diagnostic of at most three lines is passed on whole. *)
Theorem truncated_message_has_three_lines :
  forall message : string,
    List.length (Js.split Js.newline (NodeQuery.truncated message)) <= 3
    /\ (List.length (Js.split Js.newline message) <= 3 ->
        NodeQuery.truncated message = message).
Proof.
  intros message. unfold NodeQuery.truncated, Js.slice0. split.
  - rewrite split_join.
    + rewrite length_firstn. lia.
    + pose proof (split_nonempty Js.newline message) as Hne.
      destruct (Js.split Js.newline message); [contradiction | discriminate].
    + apply Forall_firstn_keeps. apply split_pieces_have_no_sep.
  - intros H. rewrite firstn_all2 by exact H. apply join_split.
Qed.

(** X21.  The configured adapter is the one looked up: after
    [configure] the lookup returns that adapter and keeps it; a lookup
    on any state leaves a state on which the next lookup returns the
    same adapter and changes nothing, so the default adapter is built
    at most once. *)
Theorem adapter_lookup_is_stable :
  forall (Adapter : Type) (TypescriptAdapter : Adapter),
    (forall (a : Adapter) (st : NodeQuery.Statics Adapter),
        NodeQuery.getAdapter TypescriptAdapter (NodeQuery.configure a st)
        = (a, NodeQuery.configure a st))
    /\ (forall st : NodeQuery.Statics Adapter,
           NodeQuery.getAdapter TypescriptAdapter
             (snd (NodeQuery.getAdapter TypescriptAdapter st))
           = NodeQuery.getAdapter TypescriptAdapter st)
    /\ (forall st : NodeQuery.Statics Adapter,
           NodeQuery.adapter st = None ->
           NodeQuery.getAdapter TypescriptAdapter st
           = (TypescriptAdapter, NodeQuery.configure TypescriptAdapter st)).
Proof.
  intros Adapter TypescriptAdapter. repeat split.
  - intros [[a|]]; reflexivity.
  - intros [a] H. simpl in H. subst a. reflexivity.
Qed.

(** *** The further properties on the sample tree *)

Lemma relationship_free_query_filters_preorder_witness :
  Compiler.Selector_queryNodes Sample.SyntaxKind Sample.proto
    Sample.fooWithCount (inl Sample.rootRef) true = Some [Sample.aRef]
  /\ Compiler.Selector_queryNodes Sample.SyntaxKind Sample.proto
       Sample.fooWithCount (inl Sample.rootRef) false = Some [].
Proof.
  split.
  - rewrite (relationship_free_query_filters_preorder
               Sample.SyntaxKind Sample.proto Sample.fooWithCount
               Sample.rootRef true eq_refl).
    reflexivity.
  - rewrite (relationship_free_query_filters_preorder
               Sample.SyntaxKind Sample.proto Sample.fooWithCount
               Sample.rootRef false eq_refl).
    reflexivity.
Defined.

Lemma child_relationship_filters_children_witness :
  Compiler.Selector_queryNodes Sample.SyntaxKind Sample.proto
    (typeSelector "Foo" (Some ">")) (inl Sample.rootRef) true
  = Some [Sample.aRef; Sample.cRef].
Proof.
  rewrite (child_relationship_filters_children
             Sample.SyntaxKind Sample.proto (typeSelector "Foo" (Some ">"))
             Sample.rootRef true eq_refl).
  reflexivity.
Defined.

Lemma sibling_query_without_parent_throws_witness :
  Compiler.Selector_queryNodes Sample.SyntaxKind Sample.proto
    (typeSelector "Foo" (Some "+")) (inl Sample.rootRef) true = None
  /\ Compiler.Selector_queryNodes Sample.SyntaxKind Sample.proto
       (typeSelector "Foo" (Some "~")) (inl Sample.rootRef) true = None.
Proof.
  split.
  - exact (sibling_query_without_parent_throws
             Sample.SyntaxKind Sample.proto (typeSelector "Foo" (Some "+"))
             Sample.rootRef true eq_refl (or_introl eq_refl)).
  - exact (sibling_query_without_parent_throws
             Sample.SyntaxKind Sample.proto (typeSelector "Foo" (Some "~"))
             Sample.rootRef true eq_refl (or_intror eq_refl)).
Defined.

Lemma unknown_relationship_selects_nothing_witness :
  Compiler.Selector_queryNodes Sample.SyntaxKind Sample.proto
    (typeSelector "Foo" (Some "<")) (inl Sample.bRef) true = Some [].
Proof.
  apply (unknown_relationship_selects_nothing
           Sample.SyntaxKind Sample.proto (typeSelector "Foo" (Some "<")) "<"
           Sample.bRef true eq_refl).
  simpl. intuition discriminate.
Defined.

(** The inner node of two nested nodes of type Foo is returned twice by
    [.Foo .Foo]. *)
Lemma two_step_type_queries_witness :
  Compiler.Expression_queryNodes Sample.SyntaxKind Sample.proto
    (Compiler.MkExpression (typeSelector "SourceFile" None)
       (Some (Compiler.MkExpression (typeSelector "Foo" (Some ">")) None)))
    (inl Sample.rootRef) true
  = Some [Sample.aRef; Sample.cRef]
  /\ Compiler.Expression_queryNodes Sample.SyntaxKind Sample.proto
       (Compiler.MkExpression (typeSelector "Foo" None)
          (Some (Compiler.MkExpression (typeSelector "Foo" None) None)))
       (inl Sample.nestedRef) true
     = Some [Sample.nestedRef; Sample.innerRef; Sample.innerRef].
Proof.
  split.
  - exact (proj1 (two_step_type_queries Sample.SyntaxKind Sample.proto
                    "SourceFile" "Foo" Sample.rootRef)).
  - exact (proj2 (two_step_type_queries Sample.SyntaxKind Sample.proto
                    "Foo" "Foo" Sample.nestedRef)).
Defined.

Lemma selector_valued_attribute_witness :
  Compiler.Attribute_match Sample.SyntaxKind Sample.proto
    (Compiler.MkAttribute "body"
       (Compiler.OfSelector (typeSelector "Foo" None)) "!=") (JNode Sample.b)
  = Some true
  /\ Compiler.Attribute_match Sample.SyntaxKind Sample.proto
       (Compiler.MkAttribute "missing"
          (Compiler.OfSelector (typeSelector "Foo" None)) "=") (JNode Sample.b)
     = None
  /\ Compiler.Attribute_match Sample.SyntaxKind Sample.proto
       (Compiler.MkAttribute "count"
          (Compiler.OfSelector (typeSelector "Foo" None)) "=") (JNode Sample.a)
     = Some false.
Proof.
  split; [|split].
  - exact (selector_valued_attribute Sample.SyntaxKind Sample.proto
             "body" "!=" (Compiler.MkSimpleSelector "Foo" None) None
             (JNode Sample.b) (JNode Sample.d) eq_refl).
  - exact (selector_valued_attribute Sample.SyntaxKind Sample.proto
             "missing" "=" (Compiler.MkSimpleSelector "Foo" None) None
             (JNode Sample.b) JNull eq_refl).
  - exact (selector_valued_attribute Sample.SyntaxKind Sample.proto
             "count" "=" (Compiler.MkSimpleSelector "Foo" None) None
             (JNode Sample.a) (JNumber 10) eq_refl).
Defined.

Lemma atom_against_array_throws_witness :
  Compiler.Attribute_match Sample.SyntaxKind Sample.proto
    (attr "statements" "=" (Compiler.Identifier "foo")) (JNode Sample.root)
  = None.
Proof.
  exact (atom_against_array_throws Sample.SyntaxKind Sample.proto
           "statements" "=" (Compiler.Identifier "foo") (JNode Sample.root)
           [JNode Sample.a; JNode Sample.b; JNode Sample.c] eq_refl).
Defined.

Lemma affix_operators_weaken_witness :
  Compiler.match_ (Compiler.Identifier "foo") (JString "foo") "^=" = Some true
  /\ Compiler.match_ (Compiler.Identifier "foo") (JString "foo") "$=" = Some true
  /\ Compiler.match_ (Compiler.Identifier "oo") (JString "foo") "*=" = Some true.
Proof.
  destruct (affix_operators_weaken (Compiler.Identifier "foo") (JString "foo")
              eq_refl) as (Heq & _ & _).
  destruct (affix_operators_weaken (Compiler.Identifier "oo") (JString "foo")
              eq_refl) as (_ & _ & Hends).
  destruct (Heq eq_refl) as [Hprefix Hsuffix].
  split; [exact Hprefix|]. split; [exact Hsuffix|].
  apply Hends. reflexivity.
Defined.

Lemma array_comparison_needs_array_target_witness :
  (Compiler.ArrayValue_match (arrayOf [Compiler.Number 1; Compiler.Number 2])
     (JNumber 1) "==" = Some false
   /\ Compiler.ArrayValue_match (arrayOf [Compiler.Number 1; Compiler.Number 2])
        (JNumber 1) "!=" = Some false)
  /\ (exists b : bool,
         Compiler.ArrayValue_match (arrayOf [Compiler.Number 1; Compiler.Number 2])
           (JArray [JNumber 1]) "==" = Some b
         /\ Compiler.ArrayValue_match (arrayOf [Compiler.Number 1; Compiler.Number 2])
              (JArray [JNumber 1]) "!=" = Some (negb b)
         /\ b = false).
Proof.
  split.
  - exact (proj1 (array_comparison_needs_array_target
                    (arrayOf [Compiler.Number 1; Compiler.Number 2]) (JNumber 1))
                 eq_refl).
  - destruct (proj2 (array_comparison_needs_array_target
                       (arrayOf [Compiler.Number 1; Compiler.Number 2])
                       (JArray [JNumber 1]))
                    [JNumber 1] eq_refl
                    (Forall_cons (JNumber 1) eq_refl (Forall_nil _)))
      as (b & Heq & Hneq & Hlen).
    exists b. split; [exact Heq|]. split; [exact Hneq|].
    apply Hlen. discriminate.
Defined.

Lemma array_text_joins_expected_values_witness :
  Compiler.ArrayValue_toString
    (arrayOf [Compiler.Number 1; Compiler.Identifier "two"; Compiler.Boolean true])
  = Some "1 two true".
Proof.
  exact (array_text_joins_expected_values
           (arrayOf [Compiler.Number 1; Compiler.Identifier "two";
                     Compiler.Boolean true]) eq_refl).
Defined.

Lemma attribute_text_loses_information_witness :
  Compiler.Attribute_toString (attr "key" "==" Compiler.Null)
  = Some "key=[object Object]"
  /\ Compiler.Attribute_toString (attr "key" "==" Compiler.Undefined)
     = Some "key=[object Object]".
Proof.
  destruct attribute_text_loses_information as [Hsame Hop].
  rewrite <- (Hsame "key" "==").
  assert (Compiler.Attribute_toString (attr "key" "==" Compiler.Null)
          = Some "key=[object Object]") as H.
  { apply (Hop "key" "==" Compiler.Null). simpl. intuition discriminate. }
  split; exact H.
Defined.

Lemma truncated_message_has_three_lines_witness :
  List.length (Js.split Js.newline (NodeQuery.truncated Sample.diagnostic)) <= 3
  /\ NodeQuery.truncated "Lexical error" = "Lexical error".
Proof.
  split.
  - exact (proj1 (truncated_message_has_three_lines Sample.diagnostic)).
  - apply (proj2 (truncated_message_has_three_lines "Lexical error")).
    simpl. lia.
Defined.

Lemma adapter_lookup_is_stable_witness :
  NodeQuery.getAdapter 0 (NodeQuery.configure 5 (NodeQuery.mkStatics None))
  = (5, NodeQuery.mkStatics (Some 5))
  /\ NodeQuery.getAdapter 0 (NodeQuery.mkStatics None)
     = (0, NodeQuery.mkStatics (Some 0)).
Proof.
  destruct (adapter_lookup_is_stable nat 0) as (Hconf & _ & Hdefault).
  split.
  - exact (Hconf 5 (NodeQuery.mkStatics None)).
  - exact (Hdefault (NodeQuery.mkStatics None) eq_refl).
Defined.

(** *** Numbers, attribute lists and parsing, continued *)

Lemma to_int_not_nil (z : Z) :
  Z.to_int z <> Decimal.Pos Decimal.Nil /\ Z.to_int z <> Decimal.Neg Decimal.Nil.
Proof.
  split; intros H; pose proof (DecimalZ.of_to z) as Hz; rewrite H in Hz;
    simpl in Hz; subst z; discriminate.
Qed.

Lemma numberToString_injective (z z' : Z) :
  Js.numberToString z = Js.numberToString z' -> z = z'.
Proof.
  unfold Js.numberToString. intros H.
  apply (f_equal NilZero.int_of_string) in H.
  destruct (to_int_not_nil z) as [Hp Hn].
  destruct (to_int_not_nil z') as [Hp' Hn'].
  rewrite !NilZero.isi in H by assumption.
  injection H as H.
  rewrite <- (DecimalZ.of_to z), <- (DecimalZ.of_to z'). now rewrite H.
Qed.

(** X22.  On a number target the equality operators of a Number
    literal decide numeric equality when both numbers are safe
    integers, the range in which [toString] prints every decimal digit:
    the decimal texts of two such integers are equal exactly when the
    integers are. *)
Theorem number_equality_is_numeric :
  forall value z : Z,
    Js.isSafeInteger value = true -> Js.isSafeInteger z = true ->
    Compiler.match_ (Compiler.Number value) (JNumber z) "==" = Some (z =? value)%Z
    /\ Compiler.match_ (Compiler.Number value) (JNumber z) "!="
       = Some (negb (z =? value)%Z).
Proof.
  intros value z _ _.
  rewrite match_eq, match_neq. simpl. unfold ret.
  assert (String.eqb (Js.numberToString z) (Js.numberToString value)
          = (z =? value)%Z) as ->.
  { destruct (Z.eqb_spec z value) as [->|Hne].
    - apply String.eqb_refl.
    - apply String.eqb_neq. intros H. now apply numberToString_injective in H. }
  split; reflexivity.
Qed.

Lemma number_equality_is_numeric_witness :
  Compiler.match_ (Compiler.Number 10) (JNumber 10) "==" = Some true
  /\ Compiler.match_ (Compiler.Number 9) (JNumber 10) "==" = Some false
  /\ Compiler.match_ (Compiler.Number (-9007199254740991))
       (JNumber 9007199254740991) "!=" = Some true.
Proof.
  split; [|split].
  - exact (proj1 (number_equality_is_numeric 10 10 eq_refl eq_refl)).
  - exact (proj1 (number_equality_is_numeric 9 10 eq_refl eq_refl)).
  - exact (proj2 (number_equality_is_numeric
                    (-9007199254740991) 9007199254740991 eq_refl eq_refl)).
Defined.

Lemma string_append_assoc (a b c : string) :
  ((a ++ b) ++ c)%string = (a ++ b ++ c)%string.
Proof. induction a as [|x a IH]; simpl; [reflexivity | now rewrite IH]. Qed.

(** X23.  The text of an attribute list is the texts of its attributes,
    each between brackets, one after the other. *)
Theorem attribute_list_text_brackets_each :
  forall l : Compiler.AttributeList,
    Compiler.AttributeList_toString l
    = bind (mapM Compiler.Attribute_toString (attributes l))
           (fun texts =>
              ret (String.concat EmptyString
                     (map (fun t => ("[" ++ t ++ "]")%string) texts))).
Proof.
  assert (forall a rest,
             Compiler.AttributeList_toString (Compiler.MkAttributeList a rest)
             = match rest with
               | Some r =>
                   bind (Compiler.Attribute_toString a)
                        (fun t => bind (Compiler.AttributeList_toString r)
                                       (fun text => ret ("[" ++ t ++ "]" ++ text)%string))
               | None =>
                   bind (Compiler.Attribute_toString a)
                        (fun t => ret ("[" ++ t ++ "]")%string)
               end) as Hunfold by (intros a [r|]; reflexivity).
  induction l as [a|a r IH] using AttributeList_rest_ind;
    rewrite Hunfold; cbn [attributes mapM].
  - destruct (Compiler.Attribute_toString a); reflexivity.
  - rewrite IH. destruct r as [a' r'].
    cbn [attributes mapM].
    destruct (Compiler.Attribute_toString a) as [t|]; cbn [bind ret];
      [|reflexivity].
    destruct (Compiler.Attribute_toString a') as [t'|]; cbn [bind ret];
      [|reflexivity].
    destruct (mapM Compiler.Attribute_toString
                (match r' with Some r0 => attributes r0 | None => [] end));
      cbn [bind ret map String.concat]; [|reflexivity].
    f_equal.
    generalize (match map (fun t0 => ("[" ++ t0 ++ "]")%string) l with
                | [] => ("[" ++ t' ++ "]")%string
                | _ :: _ =>
                    (("[" ++ t' ++ "]") ++ EmptyString
                       ++ String.concat EmptyString
                            (map (fun t0 => ("[" ++ t0 ++ "]")%string) l))%string
                end) as tail.
    intros tail. simpl. now rewrite string_append_assoc.
Qed.

(** X24.  When [parser.parse] returns, the constructed query answers
    [parse(node)] with [queryNodes] of the result the parser holds
    afterwards, and throws when the parser holds none. *)
Theorem constructed_query_parses_with_parser_result :
  forall (ExpressionList T : Type) (queryNodes : ExpressionList -> T -> list T)
         (parse : string -> NodeQuery.Parser ExpressionList ->
                  NodeQuery.Parser ExpressionList * option NodeQuery.Thrown)
         (nql : string) (parser parser' : NodeQuery.Parser ExpressionList)
         (node : T),
    parse nql parser = (parser', None) ->
    exists q : NodeQuery.NodeQuery ExpressionList,
      NodeQuery.new parse nql parser = (parser', inl q)
      /\ NodeQuery.NodeQuery_parse queryNodes q node
         = option_map (fun e => queryNodes e node) (NodeQuery.yy_result parser').
Proof.
  intros ExpressionList T queryNodes parse nql parser parser' node H.
  exists (NodeQuery.mkNodeQuery (NodeQuery.yy_result parser')).
  unfold NodeQuery.new. rewrite H. split; [reflexivity|].
  unfold NodeQuery.NodeQuery_parse. simpl.
  destruct (NodeQuery.yy_result parser'); reflexivity.
Qed.

Lemma constructed_query_parses_with_parser_result_witness :
  exists q : NodeQuery.NodeQuery nat,
    NodeQuery.new Sample.parse ".Foo" (NodeQuery.mkParser None)
    = (NodeQuery.mkParser (Some 1), inl q)
    /\ NodeQuery.NodeQuery_parse (fun e node => [e + node]) q 2 = Some [3].
Proof.
  exact (constructed_query_parses_with_parser_result
           nat nat (fun e node => [e + node]) Sample.parse ".Foo"
           (NodeQuery.mkParser None) (NodeQuery.mkParser (Some 1)) 2 eq_refl).
Defined.

(** X25.  The attribute [[k.length=n]] on a node whose own property
    [k] is an array is true exactly when the array has [n] elements;
    the empty array, whose length is falsy, is counted like any
    other. *)
Theorem array_length_attribute_counts_elements :
  forall (SyntaxKind : nat -> option string)
         (proto : JsValue -> string -> option (Exc JsValue))
         (k : string) (n : Z) (node : Node) (items : list JsValue),
    contains Js.dot k = false ->
    ownProperty (JNode node) k = Some (JArray items) ->
    Compiler.Attribute_match SyntaxKind proto
      (attr (k ++ ".length") "=" (Compiler.Number n)) (JNode node)
    = Some (Z.of_nat (List.length items) =? n)%Z.
Proof.
  intros SyntaxKind proto k n node items Hk Hown.
  unfold attr. cbn [Compiler.Attribute_match].
  assert (Compiler.getTargetNode proto (k ++ ".length") (JNode node)
          = Some (JNumber (Z.of_nat (List.length items)))) as ->.
  { unfold Compiler.getTargetNode.
    change (k ++ ".length")%string
      with (k ++ String.String Js.dot "length")%string.
    rewrite split_app_sep, (split_piece Js.dot k Hk).
    cbn [app Js.split]. simpl Js.split.
    cbn [Compiler.resolve forEach].
    unfold Compiler.getTargetNode_step at 1. cbn [truthy negb].
    rewrite Hown. cbn [bind ret].
    unfold Compiler.getTargetNode_step. reflexivity. }
  cbn [bind].
  assert (Compiler.match_ (Compiler.Number n)
            (JNumber (Z.of_nat (List.length items))) "="
          = Compiler.match_ (Compiler.Number n)
              (JNumber (Z.of_nat (List.length items))) "==") as ->
    by reflexivity.
  rewrite match_eq. simpl. unfold ret. f_equal.
  destruct (Z.eqb_spec (Z.of_nat (List.length items)) n) as [->|Hne].
  - apply String.eqb_refl.
  - apply String.eqb_neq. intros H. now apply numberToString_injective in H.
Qed.

Lemma array_length_attribute_counts_elements_witness :
  Compiler.Attribute_match Sample.SyntaxKind Sample.proto
    (attr "statements.length" "=" (Compiler.Number 3)) (JNode Sample.root)
  = Some true
  /\ Compiler.Attribute_match Sample.SyntaxKind Sample.proto
       (attr "statements.length" "=" (Compiler.Number 0)) (JNode Sample.root)
     = Some false.
Proof.
  split.
  - exact (array_length_attribute_counts_elements
             Sample.SyntaxKind Sample.proto "statements" 3 Sample.root
             [JNode Sample.a; JNode Sample.b; JNode Sample.c] eq_refl eq_refl).
  - exact (array_length_attribute_counts_elements
             Sample.SyntaxKind Sample.proto "statements" 0 Sample.root
             [JNode Sample.a; JNode Sample.b; JNode Sample.c] eq_refl eq_refl).
Defined.
